(** * JustDownloadWebApp: the task lifecycle core of [backend/main.py]

    A shallow embedding of the task record, the manager registry, the two
    download workers, the cleanup sweep and the control endpoints, followed
    by the properties of the specification that concern them.

    Conventions of the embedding.
    - A Python [str] is a [string]; each [ascii] stands for one code point
      below 256.
    - A Python [float] is a binary64 [float] of the kernel; [int] is [Z].
    - A [with task.lock:] block is one atomic update of the task record: the
      points of the lifecycle of a task are the states between two blocks.
    - What the operating system, the child process, the network and the
      clock answer is an explicit argument of the function that asks. *)

From Stdlib Require Import ZArith Floats String Ascii List Bool Lia DecimalString DecimalPos.
From stdpp Require Import gmap strings.

Set Warnings "-inexact-float".

(** ** Python primitives *)

Module Py.

(** One character of [str.isspace], [str.split()], [str.strip()] and of the
    class [\s] of [re]. *)
Definition isspace (c : ascii) : bool :=
  let n := nat_of_ascii c in
  (Nat.leb 9 n && Nat.leb n 13) || (Nat.leb 28 n && Nat.leb n 32)
  || Nat.eqb n 133 || Nat.eqb n 160.

(** [0-9], which is also [\d] below code point 256. *)
Definition isdigit (c : ascii) : bool :=
  let n := nat_of_ascii c in Nat.leb 48 n && Nat.leb n 57.

Definition dquote : string := String "034"%char EmptyString.

Fixpoint lstrip_by (p : ascii → bool) (s : string) : string :=
  match s with
  | EmptyString => EmptyString
  | String c s' => if p c then lstrip_by p s' else s
  end.

Fixpoint rstrip_by (p : ascii → bool) (s : string) : string :=
  match s with
  | EmptyString => EmptyString
  | String c s' =>
      match rstrip_by p s' with
      | EmptyString => if p c then EmptyString else String c EmptyString
      | r => String c r
      end
  end.

Definition one_of (chars : string) (c : ascii) : bool :=
  existsb (Ascii.eqb c) (list_ascii_of_string chars).

(** [s.strip()], [s.strip(chars)], [s.rstrip(chars)], [s.lstrip(chars)]. *)
Definition strip (s : string) : string := rstrip_by isspace (lstrip_by isspace s).
Definition strip_chars (chars s : string) : string :=
  rstrip_by (one_of chars) (lstrip_by (one_of chars) s).
Definition rstrip_chars (chars s : string) : string := rstrip_by (one_of chars) s.
Definition lstrip_chars (chars s : string) : string := lstrip_by (one_of chars) s.

(** [s.startswith(p)], returning what follows the prefix. *)
Fixpoint after_prefix (p s : string) : option string :=
  match p, s with
  | EmptyString, _ => Some s
  | String a p', String b s' => if Ascii.eqb a b then after_prefix p' s' else None
  | String _ _, EmptyString => None
  end.

Definition startswith (p s : string) : bool :=
  match after_prefix p s with Some _ => true | None => false end.

(** [s.partition(sep)] at the first occurrence of [sep], when there is one:
    [s.split(sep, 1)] is then [[before; after]], and [[s]] otherwise. *)
Fixpoint partition (sep s : string) : option (string * string) :=
  match after_prefix sep s with
  | Some r => Some (EmptyString, r)
  | None =>
      match s with
      | EmptyString => None
      | String c s' =>
          match partition sep s' with
          | Some (a, b) => Some (String c a, b)
          | None => None
          end
      end
  end.

(** [sub in s]. *)
Definition contains (sub s : string) : bool :=
  match partition sub s with Some _ => true | None => false end.

(** [s.split()]: the maximal runs of characters that are not whitespace. *)
Fixpoint split (s : string) : list string :=
  match s with
  | EmptyString => []
  | String c s' =>
      if isspace c then split s'
      else match split s', s' with
           | w :: ws, String d _ =>
               if isspace d then String c EmptyString :: w :: ws
               else String c w :: ws
           | _, _ => [String c EmptyString]
           end
  end.

(** [l[-1]], an [IndexError] on the empty list. *)
Definition last {A} (l : list A) : option A := List.last (map Some l) None.

(** [os.path.basename] with [/] as the separator. *)
Definition has_slash (p : string) : bool := contains "/" p.

Fixpoint basename (p : string) : string :=
  match p with
  | EmptyString => EmptyString
  | String c p' => if has_slash p then basename p' else p
  end.

(** The longest prefix of characters in a class, and the rest. *)
Fixpoint span (p : ascii → bool) (s : string) : string * string :=
  match s with
  | EmptyString => (EmptyString, EmptyString)
  | String c s' =>
      if p c then let (a, b) := span p s' in (String c a, b)
      else (EmptyString, s)
  end.

Definition nonempty (s : string) : bool :=
  match s with EmptyString => false | String _ _ => true end.

(** [pattern.search(s)] for a pattern whose match at a position is decided
    by [at_start]: the leftmost position where it matches. *)
Fixpoint search {A} (at_start : string → option A) (s : string) : option A :=
  match at_start s with
  | Some r => Some r
  | None =>
      match s with
      | EmptyString => None
      | String _ s' => search at_start s'
      end
  end.

(** *** Numbers *)

Definition digit_value (c : ascii) : Z := (Z.of_nat (nat_of_ascii c) - 48)%Z.

Fixpoint digits_value (acc : Z) (s : string) : Z :=
  match s with
  | EmptyString => acc
  | String c s' => digits_value (10 * acc + digit_value c)%Z s'
  end.

(** The pass of [int()] and [float()] over underscores: one is allowed only
    between two digits, and is dropped. [prev] is the character before. *)
Fixpoint drop_underscores (prev : ascii) (s : string) : option string :=
  match s with
  | EmptyString => if Ascii.eqb prev "_" then None else Some EmptyString
  | String c s' =>
      if Ascii.eqb c "_" then
        if isdigit prev then drop_underscores c s' else None
      else if Ascii.eqb prev "_" && negb (isdigit c) then None
      else option_map (String c) (drop_underscores c s')
  end.

Definition parse_sign (s : string) : bool * string :=
  match s with
  | String c r =>
      if Ascii.eqb c "-" then (true, r)
      else if Ascii.eqb c "+" then (false, r)
      else (false, s)
  | EmptyString => (false, s)
  end.

(** Whitespace that [int()] and [float()] strip from both ends of a [str]. *)
Definition num_space (c : ascii) : bool :=
  let n := nat_of_ascii c in
  (Nat.leb 9 n && Nat.leb n 13) || Nat.eqb n 32 || Nat.eqb n 133 || Nat.eqb n 160.

(** [int(s)] in base 10 for a [str]: [None] is [ValueError]. The limit
    that recent interpreters put on the number of digits (4300 unless
    configured) is not modelled. *)
Definition int_of_str (s : string) : option Z :=
  match drop_underscores "000"%char (rstrip_by num_space (lstrip_by num_space s)) with
  | None => None
  | Some s1 =>
      let (neg, ds) := parse_sign s1 in
      if nonempty ds && forallb isdigit (list_ascii_of_string ds)
      then Some (if neg then Z.opp (digits_value 0 ds) else digits_value 0 ds)
      else None
  end.

(** The binary64 value nearest to [p / q], ties to even; an infinity when it
    is out of range. *)
Definition round_ratio (neg : bool) (p q : positive) : spec_float :=
  SF64div (S754_finite neg p 0%Z) (S754_finite false q 0%Z).

(** The binary64 value nearest to [m * 10 ^ e10], [m] being non-negative. *)
Definition float_of_decimal (neg : bool) (m e10 : Z) : float :=
  match m with
  | Zpos p =>
      if (0 <=? e10)%Z
      then SF2Prim (round_ratio neg (p * Z.to_pos (10 ^ e10)%Z) 1)
      else SF2Prim (round_ratio neg p (Z.to_pos (10 ^ (- e10))%Z))
  | _ => if neg then neg_zero else PrimFloat.zero
  end.

Definition lower (c : ascii) : ascii :=
  let n := nat_of_ascii c in
  if Nat.leb 65 n && Nat.leb n 90 then ascii_of_nat (n + 32) else c.

Fixpoint lower_str (s : string) : string :=
  match s with
  | EmptyString => EmptyString
  | String c s' => String (lower c) (lower_str s')
  end.

(** The exponent part of a decimal literal: [e] or [E], a sign, digits. It is
    read only when it has a digit. *)
Definition parse_exponent (s : string) : Z * string :=
  match s with
  | String c r =>
      if Ascii.eqb (lower c) "e" then
        let (neg, r1) := parse_sign r in
        let (ds, r2) := span isdigit r1 in
        if nonempty ds
        then ((if neg then Z.opp (digits_value 0 ds) else digits_value 0 ds), r2)
        else (0%Z, s)
      else (0%Z, s)
  | EmptyString => (0%Z, s)
  end.

(** [float(s)] for a [str]: [None] is [ValueError]. *)
Definition float_of_str (s : string) : option float :=
  match drop_underscores "000"%char s with
  | None => None
  | Some s0 =>
      let s1 := rstrip_by num_space (lstrip_by num_space s0) in
      let (neg, body) := parse_sign s1 in
      let (ip, r1) := span isdigit body in
      let (fp, r2) :=
        match r1 with
        | String c r => if Ascii.eqb c "." then span isdigit r else (EmptyString, r1)
        | EmptyString => (EmptyString, r1)
        end in
      if nonempty ip || nonempty fp then
        let (ex, r3) := parse_exponent r2 in
        match r3 with
        | EmptyString =>
            Some (float_of_decimal neg (digits_value 0 (ip +:+ fp))
                                   (ex - Z.of_nat (String.length fp))%Z)
        | String _ _ => None
        end
      else
        let w := lower_str body in
        if String.eqb w "inf" || String.eqb w "infinity"
        then Some (if neg then neg_infinity else infinity)
        else if String.eqb w "nan" then Some nan
        else None
  end.

(** [float(n)] for an [int]: the nearest binary64 value, ties to even.
    [int_to_float] gives an infinity where Python raises [OverflowError];
    [float_of_int] is [None] there. *)
Definition int_to_float (n : Z) : float :=
  SF2Prim (binary_normalize prec emax n 0 false).

Definition float_of_int (n : Z) : option float :=
  let x := int_to_float n in
  if is_infinity x then None else Some x.

(** [a / b] on two [int]s: the nearest binary64 value; [None] is
    [ZeroDivisionError] or [OverflowError]. *)
Definition truediv (a b : Z) : option float :=
  match a, b with
  | _, Z0 => None
  | Z0, Zpos _ => Some PrimFloat.zero
  | Z0, Zneg _ => Some neg_zero
  | Zpos p, Zpos q => Some (SF2Prim (round_ratio false p q))
  | Zneg p, Zneg q => Some (SF2Prim (round_ratio false p q))
  | Zpos p, Zneg q => Some (SF2Prim (round_ratio true p q))
  | Zneg p, Zpos q => Some (SF2Prim (round_ratio true p q))
  end ≫= λ x, if is_infinity x then None else Some x.

(** [int(x)] for a float: truncation towards zero; [None] is [OverflowError]
    (an infinity) or [ValueError] (a NaN). *)
Definition int_of_float (x : float) : option Z :=
  match Prim2SF x with
  | S754_zero _ => Some 0%Z
  | S754_finite s m e =>
      let a := if (0 <=? e)%Z then (Zpos m * 2 ^ e)%Z else (Zpos m / 2 ^ (- e))%Z in
      Some (if s then Z.opp a else a)
  | S754_infinity _ | S754_nan => None
  end.

(** [max(a, b)] and [min(a, b)] on floats: the second argument is returned
    only when it compares strictly greater, respectively smaller. *)
Definition max (a b : float) : float := if (a <? b)%float then b else a.
Definition min (a b : float) : float := if (b <? a)%float then b else a.

(** [repr(s)] for a [str]: the quote is the single one unless [s] has one
    and has no double quote; a backslash, the quote and the characters that
    are not printable are escaped. *)
Definition squote : string := "'".
Definition backslash : ascii := "092"%char.

Definition hex_digit (n : nat) : ascii :=
  if Nat.ltb n 10 then ascii_of_nat (48 + n) else ascii_of_nat (87 + n).

Definition printable (c : ascii) : bool :=
  let n := nat_of_ascii c in
  (Nat.leb 32 n && Nat.leb n 126) || (Nat.leb 161 n && negb (Nat.eqb n 173)).

Definition escape (c : ascii) : string := String backslash (String c EmptyString).

Definition repr_char (quote c : ascii) : string :=
  let n := nat_of_ascii c in
  if Ascii.eqb c quote || Ascii.eqb c backslash then escape c
  else if Nat.eqb n 9 then escape "t"
  else if Nat.eqb n 10 then escape "n"
  else if Nat.eqb n 13 then escape "r"
  else if printable c then String c EmptyString
  else String backslash
         (String "x" (String (hex_digit (n / 16))
                        (String (hex_digit (n mod 16)) EmptyString))).

Fixpoint repr_body (quote : ascii) (s : string) : string :=
  match s with
  | EmptyString => EmptyString
  | String c s' => repr_char quote c +:+ repr_body quote s'
  end.

Definition repr (s : string) : string :=
  let quote : ascii :=
    if contains squote s && negb (contains dquote s) then "034"%char else "'"%char in
  String quote (repr_body quote s) +:+ String quote EmptyString.

(** The message of the [ValueError] of [int(s)]. *)
Definition int_error (s : string) : string :=
  "invalid literal for int() with base 10: " +:+ String.substring 0 200 (repr s).

(** Truth value of a float, of a [str], of an optional [str]. *)
Definition truthy_float (x : float) : bool := negb (x =? 0)%float.
Definition truthy (o : option string) : bool :=
  match o with Some s => nonempty s | None => false end.

End Py.

(** ** Data model *)

(** The values the [status] field takes, named as the strings of the source. *)
Inductive Status : Set :=
  | pending | downloading | completed | paused | canceled | error.

(** The values of the [control] field: the empty string, [pause], [cancel]. *)
Inductive Control : Set := no_control | pause | cancel.

Global Instance Status_eq_dec : EqDecision Status.
Proof. solve_decision. Defined.

Global Instance Control_eq_dec : EqDecision Control.
Proof. solve_decision. Defined.

Definition status_in (s : Status) (l : list Status) : bool := bool_decide (s ∈ l).

(** [class StartRequest]. *)
Module StartRequest.
Record t : Type := mk { url : string; category : string; fmt : string; quality : string }.
End StartRequest.

(** [class TaskStatus], the record an endpoint returns. *)
Module TaskStatus.
Record t : Type := mk {
  id : string;
  url : string;
  title : option string;
  filename : option string;
  status : Status;
  progress : float;
  fmt : string;
  quality : string;
  filepath : option string;
  message : option string;
  speed : option float;
  eta : option Z;
  downloaded_at : option string;
  download_url : option string
}.
End TaskStatus.

(** [class Task]. The lock is the atomicity of the updates below; the
    [thread] field is only written. *)
Module Task.

Record t : Type := mk {
  id : string;
  url : string;
  category : string;
  fmt : string;
  quality : string;
  status : Status;
  progress : float;
  title : option string;
  filename : option string;
  filepath : option string;
  message : option string;
  control : Control;
  speed : option float;
  eta : option Z;
  downloaded_at : option string;
  download_url : option string
}.

(** [Task.__init__]. *)
Definition init (tid : string) (req : StartRequest.t) : t :=
  {| id := tid;
     url := StartRequest.url req;
     category := StartRequest.category req;
     fmt := StartRequest.fmt req;
     quality := StartRequest.quality req;
     status := pending;
     progress := 0;
     title := None;
     filename := None;
     filepath := None;
     message := None;
     control := no_control;
     speed := None;
     eta := None;
     downloaded_at := None;
     download_url := None |}.

(** Assignments to one field. *)
Definition set_status (v : Status) (x : t) : t :=
  mk (id x) (url x) (category x) (fmt x) (quality x) v (progress x) (title x)
     (filename x) (filepath x) (message x) (control x) (speed x) (eta x)
     (downloaded_at x) (download_url x).
Definition set_progress (v : float) (x : t) : t :=
  mk (id x) (url x) (category x) (fmt x) (quality x) (status x) v (title x)
     (filename x) (filepath x) (message x) (control x) (speed x) (eta x)
     (downloaded_at x) (download_url x).
Definition set_title (v : option string) (x : t) : t :=
  mk (id x) (url x) (category x) (fmt x) (quality x) (status x) (progress x) v
     (filename x) (filepath x) (message x) (control x) (speed x) (eta x)
     (downloaded_at x) (download_url x).
Definition set_filename (v : option string) (x : t) : t :=
  mk (id x) (url x) (category x) (fmt x) (quality x) (status x) (progress x)
     (title x) v (filepath x) (message x) (control x) (speed x) (eta x)
     (downloaded_at x) (download_url x).
Definition set_message (v : option string) (x : t) : t :=
  mk (id x) (url x) (category x) (fmt x) (quality x) (status x) (progress x)
     (title x) (filename x) (filepath x) v (control x) (speed x) (eta x)
     (downloaded_at x) (download_url x).
Definition set_control (v : Control) (x : t) : t :=
  mk (id x) (url x) (category x) (fmt x) (quality x) (status x) (progress x)
     (title x) (filename x) (filepath x) (message x) v (speed x) (eta x)
     (downloaded_at x) (download_url x).
Definition set_speed (v : option float) (x : t) : t :=
  mk (id x) (url x) (category x) (fmt x) (quality x) (status x) (progress x)
     (title x) (filename x) (filepath x) (message x) (control x) v (eta x)
     (downloaded_at x) (download_url x).
Definition set_eta (v : option Z) (x : t) : t :=
  mk (id x) (url x) (category x) (fmt x) (quality x) (status x) (progress x)
     (title x) (filename x) (filepath x) (message x) (control x) (speed x) v
     (downloaded_at x) (download_url x).
Definition set_downloaded_at (v : option string) (x : t) : t :=
  mk (id x) (url x) (category x) (fmt x) (quality x) (status x) (progress x)
     (title x) (filename x) (filepath x) (message x) (control x) (speed x)
     (eta x) v (download_url x).
Definition set_download_url (v : option string) (x : t) : t :=
  mk (id x) (url x) (category x) (fmt x) (quality x) (status x) (progress x)
     (title x) (filename x) (filepath x) (message x) (control x) (speed x)
     (eta x) (downloaded_at x) v.

(** [Task.to_status]. *)
Definition to_status (x : t) : TaskStatus.t :=
  {| TaskStatus.id := id x;
     TaskStatus.url := url x;
     TaskStatus.title := title x;
     TaskStatus.filename := filename x;
     TaskStatus.status := status x;
     TaskStatus.progress := progress x;
     TaskStatus.fmt := fmt x;
     TaskStatus.quality := quality x;
     TaskStatus.filepath := filepath x;
     TaskStatus.message := message x;
     TaskStatus.speed := speed x;
     TaskStatus.eta := eta x;
     TaskStatus.downloaded_at := downloaded_at x;
     TaskStatus.download_url := download_url x |}.

End Task.

(** ** The media worker, [run_ytdlp] *)

(** [speed_re]: [([0-9.]+)\s*(KiB|MiB|GiB)/s]. A match at the start of [s]:
    neither greedy part can give back a character, since what follows it
    must begin a later part of the pattern. *)
Definition speed_at (s : string) : option (string * string) :=
  let (val, r) := Py.span (λ c, Py.isdigit c || Ascii.eqb c ".") s in
  if Py.nonempty val then
    let r := Py.lstrip_by Py.isspace r in
    if Py.startswith "KiB/s" r then Some (val, "KiB")
    else if Py.startswith "MiB/s" r then Some (val, "MiB")
    else if Py.startswith "GiB/s" r then Some (val, "GiB")
    else None
  else None.

Definition speed_re (line : string) : option (string * string) :=
  Py.search speed_at line.

(** [eta_re]: [ETA\s*(\d+):(\d+)]. *)
Definition eta_at (s : string) : option (string * string) :=
  match Py.after_prefix "ETA" s with
  | None => None
  | Some r =>
      let (mm, r1) := Py.span Py.isdigit (Py.lstrip_by Py.isspace r) in
      match r1 with
      | String c r2 =>
          let (ss, _) := Py.span Py.isdigit r2 in
          if Py.nonempty mm && Ascii.eqb c ":" && Py.nonempty ss
          then Some (mm, ss) else None
      | EmptyString => None
      end
  end.

Definition eta_re (line : string) : option (string * string) :=
  Py.search eta_at line.

(** [max(0.0, min(1.0, x))]. *)
Definition clamp (x : float) : float := Py.max 0 (Py.min 1 x).

(** The multiplier of a unit: 1024 for KiB, 1024 ** 2 for MiB, else 1024 ** 3. *)
Definition mult (unit : string) : Z :=
  if String.eqb unit "KiB" then 1024%Z
  else if String.eqb unit "MiB" then (1024 ^ 2)%Z
  else (1024 ^ 3)%Z.

(** The blocks under the lock, in the order of the source. *)

(** Lines 234-236 and 344-346. *)
Definition worker_begin (t : Task.t) : Task.t :=
  Task.set_progress 0 (Task.set_status downloading t).

(** Lines 259-260. *)
Definition store_progress (pct : float) (t : Task.t) : Task.t :=
  Task.set_progress (clamp (pct / 100)) t.

(** Lines 266-267. *)
Definition store_speed (val : float) (m : Z) (t : Task.t) : Task.t :=
  Task.set_speed (Some (val * Py.int_to_float m)%float) t.

(** Lines 272-273. *)
Definition store_eta (mm ss : Z) (t : Task.t) : Task.t :=
  Task.set_eta (Some (mm * 60 + ss)%Z) t.

(** Lines 280-282, 286-288 and 314-316: the file name and its public path
    are written together. *)
Definition store_filename (name : string) (t : Task.t) : Task.t :=
  Task.set_download_url (Some ("/downloads/" +:+ name))
    (Task.set_filename (Some name) t).

(** Lines 291-305 and 363-369: the control check. The boolean tells that the
    worker returns. *)
Definition control_check (t : Task.t) : Task.t * bool :=
  match Task.control t with
  | pause => (Task.set_status paused t, true)
  | cancel => (Task.set_status canceled t, true)
  | no_control => (t, false)
  end.

(** Lines 337-339 and 391-393: the handler of any exception. *)
Definition worker_error (msg : string) (t : Task.t) : Task.t :=
  Task.set_message (Some msg) (Task.set_status error t).

(** Lines 269-273, the ETA of a progress line. The two groups are digits, so
    [int] reads them as such. *)
Definition parse_eta (line : string) (t : Task.t) : Task.t :=
  match eta_re line with
  | Some (mm, ss) => store_eta (Py.digits_value 0 mm) (Py.digits_value 0 ss) t
  | None => t
  end.

(** The last blank-separated word of what precedes the first percent sign. *)
Definition pct_part (line : string) : option string :=
  match Py.partition "%" line with
  | Some (before, _) => Py.last (Py.split before)
  | None => Py.last (Py.split line)
  end.

(** Lines 256-275, the body of the [try]: an exception leaves the rest of
    the body undone and is dropped. *)
Definition parse_progress (line : string) (t : Task.t) : Task.t :=
  match pct_part line ≫= Py.float_of_str with
  | None => t
  | Some pct =>
      let t1 := store_progress pct t in
      match speed_re line with
      | Some (val, unit) =>
          match Py.float_of_str val with
          | Some v => parse_eta line (store_speed v (mult unit) t1)
          | None => t1
          end
      | None => parse_eta line t1
      end
  end.

(** Lines 278-282. *)
Definition parse_destination (line : string) (t : Task.t) : Task.t :=
  match Py.partition "Destination:" line with
  | Some (_, rest) =>
      store_filename (Py.basename (Py.strip_chars Py.dquote (Py.strip rest))) t
  | None => t
  end.

(** Lines 284-288. *)
Definition merging_marker : string := "Merging formats into " +:+ Py.dquote.

Definition parse_merging (line : string) (t : Task.t) : Task.t :=
  match Py.partition merging_marker line with
  | Some (_, rest) => store_filename (Py.basename (Py.rstrip_chars Py.dquote rest)) t
  | None => t
  end.

(** Lines 252-305, one iteration of the loop over the output. *)
Definition ytdlp_line (raw_line : string) (t : Task.t) : Task.t * bool :=
  let line := Py.strip raw_line in
  let t1 :=
    if Py.startswith "[download]" line && Py.contains "%" line
    then parse_progress line t else t in
  control_check (parse_merging line (parse_destination line t1)).

(** Lines 251-305, the loop. *)
Fixpoint ytdlp_stream (lines : list string) (t : Task.t) : Task.t * bool :=
  match lines with
  | [] => (t, false)
  | raw_line :: rest =>
      let (t', returned) := ytdlp_line raw_line t in
      if returned then (t', true) else ytdlp_stream rest t'
  end.

(** Lines 310-316. [matches] is [sorted(glob.glob(...))] for the pattern
    [<task id>.*] in the download directory. *)
Definition glob_fallback (matches : list string) (t : Task.t) : Task.t :=
  if negb (Py.truthy (Task.filename t)) then
    match matches with
    | m :: _ => store_filename (Py.basename m) t
    | [] => t
    end
  else t.

Definition not_found_message : string := "Download finished but file not found".

(** The f-string [/downloads/{task.filename}]. *)
Definition public_path (t : Task.t) : option string :=
  Some ("/downloads/" +:+ default "None" (Task.filename t)).

(** Lines 318-334. [now1] and [now2] are the two readings of the clock,
    formatted. *)
Definition ytdlp_finish (now1 now2 : string) (t : Task.t) : Task.t :=
  if negb (status_in (Task.status t) [paused; canceled]) then
    let t1 := Task.set_downloaded_at (Some now1)
                (Task.set_status completed (Task.set_progress 1 t)) in
    let t2 := if Py.truthy (Task.filename t1)
              then Task.set_download_url (public_path t1) t1 else t1 in
    if negb (status_in (Task.status t2) [paused; canceled]) then
      if Py.truthy (Task.filename t2) then
        Task.set_download_url (public_path t2)
          (Task.set_downloaded_at (Some now2)
             (Task.set_status completed (Task.set_progress 1 t2)))
      else
        Task.set_message (Some not_found_message) (Task.set_status error t2)
    else t2
  else t.

(** What the media worker is answered. *)
Module YtdlpEnv.
Record t : Type := mk {
  popen : string + list string;  (* the exception of [Popen], or the lines of the output *)
  matches : list string;         (* [sorted(glob.glob(...))], line 311 *)
  now1 : string;                 (* [datetime.now()] formatted, line 322 *)
  now2 : string                  (* the same, line 330 *)
}.
End YtdlpEnv.

(** [run_ytdlp], lines 233-339. Lines 197-231 build the command line and do
    not touch the task. *)
Definition run_ytdlp (env : YtdlpEnv.t) (task : Task.t) : Task.t :=
  let t := worker_begin task in
  match YtdlpEnv.popen env with
  | inl msg => worker_error msg t
  | inr lines =>
      let (t1, returned) := ytdlp_stream lines t in
      if returned then t1
      else ytdlp_finish (YtdlpEnv.now1 env) (YtdlpEnv.now2 env)
             (glob_fallback (YtdlpEnv.matches env) t1)
  end.

(** ** The image worker, [run_image] *)

(** How a loop of a worker ends: it falls through to what follows it, the
    worker returns, or an exception reaches the handler of the worker. *)
Inductive Outcome : Type :=
  | falls_through
  | returns
  | raises (msg : string).

(** What the image worker is answered. *)
Module ImageEnv.

(** One turn of [r.iter_content]: a chunk, with what [f.write] raises on it
    and the value of [time.time() - start] read on line 377; or an exception
    of the transfer. *)
Inductive event : Type :=
  | chunk (data : list Byte.byte) (write_error : option string) (elapsed : float)
  | broken (msg : string).

Record t : Type := mk {
  response : string + option string;  (* the exception of [requests.get] or
                                         [raise_for_status], or the
                                         content-length header *)
  open_error : option string;         (* the exception of [open], line 358 *)
  body : list event;
  now : string                        (* [datetime.now()] formatted, line 387 *)
}.

End ImageEnv.

Definition int_too_large : string := "int too large to convert to float".
Definition division_too_large : string := "integer division result too large for a float".
Definition infinity_to_int : string := "cannot convert float infinity to integer".
Definition nan_to_int : string := "cannot convert float NaN to integer".

(** Line 354: [int(r.headers.get(..., 0) or 0)]. *)
Definition image_total (content_length : option string) : string + Z :=
  match content_length with
  | Some s =>
      if Py.nonempty s then
        match Py.int_of_str s with
        | Some n => inr n
        | None => inl (Py.int_error s)
        end
      else inr 0%Z
  | None => inr 0%Z
  end.

(** Lines 350-351. *)
Definition image_name (task : Task.t) : string :=
  let fmt := Task.fmt task in
  let ext := Py.lstrip_chars "." (if Py.nonempty fmt then fmt else "jpg") in
  Task.id task +:+ "." +:+ ext.

(** Lines 377-378: [downloaded / max(1, time.time() - start)]. The maximum is
    the integer 1 unless the elapsed time is greater. *)
Definition image_speed (downloaded : Z) (elapsed : float) : string + float :=
  if (1 <? elapsed)%float then
    match Py.float_of_int downloaded with
    | Some d => inr (d / elapsed)%float
    | None => inl int_too_large
    end
  else
    match Py.truediv downloaded 1 with
    | Some v => inr v
    | None => inl division_too_large
    end.

(** Line 380: [int(remaining / task.speed) if task.speed else None]. *)
Definition image_eta (remaining : Z) (speed : float) : string + option Z :=
  if Py.truthy_float speed then
    match Py.float_of_int remaining with
    | None => inl int_too_large
    | Some r =>
        let q := (r / speed)%float in
        match Py.int_of_float q with
        | Some n => inr (Some n)
        | None => inl (if is_nan q then nan_to_int else infinity_to_int)
        end
    end
  else inr None.

(** Lines 375-380, the block under the lock: an exception leaves the
    assignments before it done. *)
Definition image_progress (downloaded total : Z) (elapsed : float) (t : Task.t)
  : Task.t * option string :=
  match Py.truediv downloaded total with
  | None => (t, Some division_too_large)
  | Some ratio =>
      let t1 := Task.set_progress (clamp ratio) t in
      match image_speed downloaded elapsed with
      | inl msg => (t1, Some msg)
      | inr v =>
          let t2 := Task.set_speed (Some v) t1 in
          match image_eta (total - downloaded) v with
          | inl msg => (t2, Some msg)
          | inr e => (Task.set_eta e t2, None)
          end
      end
  end.

(** Lines 359-380, the loop over the chunks. *)
Fixpoint image_stream (total : Z) (body : list ImageEnv.event) (downloaded : Z)
    (t : Task.t) : Task.t * Outcome :=
  match body with
  | [] => (t, falls_through)
  | ImageEnv.broken msg :: _ => (t, raises msg)
  | ImageEnv.chunk data write_error elapsed :: rest =>
      match data with
      | [] => image_stream total rest downloaded t
      | _ :: _ =>
          let (t1, returned) := control_check t in
          if returned then (t1, returns)
          else
            match write_error with
            | Some msg => (t1, raises msg)
            | None =>
                let downloaded' := (downloaded + Z.of_nat (length data))%Z in
                if (total =? 0)%Z then image_stream total rest downloaded' t1
                else
                  match image_progress downloaded' total elapsed t1 with
                  | (t2, Some msg) => (t2, raises msg)
                  | (t2, None) => image_stream total rest downloaded' t2
                  end
            end
      end
  end.

(** Lines 382-388. *)
Definition image_complete (fname now : string) (t : Task.t) : Task.t :=
  Task.set_download_url (Some ("/downloads/" +:+ fname))
    (Task.set_downloaded_at (Some now)
       (Task.set_download_url (Some ("/downloads/" +:+ fname))
          (Task.set_filename (Some fname)
             (Task.set_progress 1 (Task.set_status completed t))))).

(** [run_image], lines 342-393. *)
Definition run_image (env : ImageEnv.t) (task : Task.t) : Task.t :=
  let t := worker_begin task in
  match ImageEnv.response env with
  | inl msg => worker_error msg t
  | inr content_length =>
      match image_total content_length with
      | inl msg => worker_error msg t
      | inr total =>
          match ImageEnv.open_error env with
          | Some msg => worker_error msg t
          | None =>
              match image_stream total (ImageEnv.body env) 0 t with
              | (t1, falls_through) =>
                  image_complete (image_name task) (ImageEnv.now env) t1
              | (t1, returns) => t1
              | (t1, raises msg) => worker_error msg t1
              end
          end
      end
  end.

(** ** The threads of [start_download] and [resume_task] *)

Module Env.
Record t : Type := mk { ytdlp : YtdlpEnv.t; image : ImageEnv.t }.
End Env.

Definition unsupported_message : string := "Unsupported category".

Definition is_media (category : string) : bool :=
  String.eqb category "video" || String.eqb category "audio".

(** Lines 446-448. *)
Definition reject_category (t : Task.t) : Task.t :=
  Task.set_message (Some unsupported_message) (Task.set_status error t).

(** [runner] of [start_download], lines 440-448. *)
Definition start_runner (env : Env.t) (task : Task.t) : Task.t :=
  if is_media (Task.category task) then run_ytdlp (Env.ytdlp env) task
  else if String.eqb (Task.category task) "image" then run_image (Env.image env) task
  else reject_category task.

(** [runner] of [resume_task], lines 504-508. *)
Definition resume_runner (env : Env.t) (task : Task.t) : Task.t :=
  if is_media (Task.category task) then run_ytdlp (Env.ytdlp env) task
  else if String.eqb (Task.category task) "image" then run_image (Env.image env) task
  else task.

(** ** The registry and the endpoints *)

(** [Manager.tasks]: task id to task. A worker reaches its task through the
    entry of its id. *)
Abbreviation Manager := (gmap string Task.t).

Definition MAX_TASKS : nat := 20.

Record HTTPException : Type := { status_code : Z; detail : string }.

(** What an endpoint answers: the record it returns or the exception it
    raises. *)
Inductive Response : Type :=
  | returned (s : TaskStatus.t)
  | raised (e : HTTPException).

(** The thread an endpoint starts on a task. *)
Inductive Runner : Set := runner_of_start | runner_of_resume.

Definition run (r : Runner) : Env.t → Task.t → Task.t :=
  match r with
  | runner_of_start => start_runner
  | runner_of_resume => resume_runner
  end.

Definition too_many : string :=
  "⚠️ Too many active downloads (max 20). Please wait or clear old tasks.".

Definition not_found : HTTPException :=
  {| status_code := 404; detail := "Task not found" |}.

(** [Manager.all] and the two evictions. *)
Definition all (m : Manager) : list TaskStatus.t :=
  map (λ kt, Task.to_status kt.2) (map_to_list m).

Definition clear_completed (m : Manager) : Manager :=
  filter (λ kt, Task.status kt.2 ≠ completed) m.

Definition clear_canceled (m : Manager) : Manager :=
  filter (λ kt, Task.status kt.2 ≠ canceled) m.

(** The blocks under the lock of the endpoints: lines 437-438, 475-477,
    487-489 and 500-502. *)
Definition store_title (title : option string) (t : Task.t) : Task.t :=
  if Py.truthy title then Task.set_title title t else t.
Definition request_pause (t : Task.t) : Task.t :=
  Task.set_status paused (Task.set_control pause t).
Definition request_cancel (t : Task.t) : Task.t :=
  Task.set_status canceled (Task.set_control cancel t).
Definition request_resume (t : Task.t) : Task.t :=
  Task.set_status downloading (Task.set_control no_control t).

(** The tasks counted on line 427. *)
Definition active (t : Task.t) : bool :=
  status_in (Task.status t) [pending; downloading].

Definition active_tasks (m : Manager) : list Task.t :=
  List.filter active (map snd (map_to_list m)).

(** An endpoint returns [task.to_status()], and calls it with no lock, after
    the block that writes the task has released it and, in [start_download]
    and [resume_task], after [t.start()] (lines 450-453, 478, 490 and
    510-513). The threads at work on the task may have written to it in
    between: [later] is what they have done to the task by the time the
    record is read, the identity when none has written. The registry that
    the endpoint returns holds the task as its own block left it; what the
    threads write goes to the registry through [run_thread]. *)

(** [start_download], lines 426-453. [tid] is the fresh [uuid4] and
    [fetched] the answer of [get_video_title]. *)
Definition start_download (req : StartRequest.t) (tid : string)
    (fetched : option string) (later : Task.t → Task.t) (m : Manager)
  : Manager * Response * option (Runner * string) :=
  if Nat.leb MAX_TASKS (length (active_tasks m)) then
    (m, raised {| status_code := 429; detail := too_many |}, None)
  else
    let task := store_title fetched (Task.init tid req) in
    (<[tid := task]> m, returned (Task.to_status (later task)),
     Some (runner_of_start, tid)).

(** [get_status], lines 462-466. *)
Definition get_status (tid : string) (m : Manager) : Response :=
  match m !! tid with
  | Some task => returned (Task.to_status task)
  | None => raised not_found
  end.

(** [pause_task], lines 470-478. *)
Definition pause_task (tid : string) (later : Task.t → Task.t) (m : Manager)
  : Manager * Response * option (Runner * string) :=
  match m !! tid with
  | None => (m, raised not_found, None)
  | Some task =>
      let task := request_pause task in
      (<[tid := task]> m, returned (Task.to_status (later task)), None)
  end.

(** [cancel_task], lines 482-490. *)
Definition cancel_task (tid : string) (later : Task.t → Task.t) (m : Manager)
  : Manager * Response * option (Runner * string) :=
  match m !! tid with
  | None => (m, raised not_found, None)
  | Some task =>
      let task := request_cancel task in
      (<[tid := task]> m, returned (Task.to_status (later task)), None)
  end.

(** [resume_task], lines 494-513. *)
Definition resume_task (tid : string) (later : Task.t → Task.t) (m : Manager)
  : Manager * Response * option (Runner * string) :=
  match m !! tid with
  | None => (m, raised not_found, None)
  | Some task =>
      let task := request_resume task in
      (<[tid := task]> m, returned (Task.to_status (later task)), Some (runner_of_resume, tid))
  end.

(** A thread running to its end on the task of its id. *)
Definition run_thread (r : Runner) (env : Env.t) (tid : string) (m : Manager) : Manager :=
  match m !! tid with
  | Some task => <[tid := run r env task]> m
  | None => m
  end.

(** ** The cleanup sweep, [cleanup_worker] *)

(** A path of the download directory: its modification time, and whether
    [os.remove] succeeds on it. *)
Module File.
Record t : Type := mk { mtime : float; removable : bool }.
End File.

(** The download directory, by name. *)
Abbreviation Storage := (gmap string File.t).

(** Lines 401-412, the body of the loop over the tasks. *)
Definition sweep_task (now : float) (task : Task.t) (files : Storage) : Storage :=
  if status_in (Task.status task) [completed; canceled] && Py.truthy (Task.filename task)
  then
    let name := default EmptyString (Task.filename task) in
    match files !! name with
    | Some f =>
        if (600 <? now - File.mtime f)%float
        then (if File.removable f then delete name files else files)
        else files
    | None => files
    end
  else files.

(** Lines 399-412, one pass of the loop [while True]. [now] is [time.time()]. *)
Definition cleanup_pass (now : float) (m : Manager) (files : Storage) : Storage :=
  fold_left (λ fs kt, sweep_task now kt.2 fs) (map_to_list m) files.

(** ** The lifecycle of one task *)

(** One atomic update of a task: a block under its lock, of a worker or of
    an endpoint. Any thread may take its next block at any time, so the
    lifecycle of a task is a chain of such updates from [Task.init]. *)
Inductive step : Task.t → Task.t → Prop :=
  | step_title t title : step t (store_title title t)
  | step_reject t : step t (reject_category t)
  | step_begin t : step t (worker_begin t)
  | step_progress t pct : step t (store_progress pct t)
  | step_speed t val m : step t (store_speed val m t)
  | step_eta t mm ss : step t (store_eta mm ss t)
  | step_filename t name : step t (store_filename name t)
  | step_control t : step t (control_check t).1
  | step_finish t now1 now2 : step t (ytdlp_finish now1 now2 t)
  | step_error t msg : step t (worker_error msg t)
  | step_image_progress t downloaded total elapsed :
      step t (image_progress downloaded total elapsed t).1
  | step_image_complete t fname now : step t (image_complete fname now t)
  | step_pause t : step t (request_pause t)
  | step_cancel t : step t (request_cancel t)
  | step_resume t : step t (request_resume t).

Definition reachable (t : Task.t) : Prop :=
  ∃ tid req, rtc step (Task.init tid req) t.

(** What the threads can have done to a task between the moment an endpoint
    releases its lock and the moment it reads the record: any chain of
    blocks, none included. *)
Definition interleaving (later : Task.t → Task.t) : Prop :=
  ∀ t, rtc step t (later t).

(** The fields that no block writes: those of the request, and the path. *)
Definition request_fields (t : Task.t) :=
  (Task.id t, Task.url t, Task.category t, Task.fmt t, Task.quality t,
   Task.filepath t).

(** The progress fraction lies in the closed unit interval. *)
Definition in_unit (p : float) : Prop :=
  (0 <=? p)%float = true ∧ (p <=? 1)%float = true.

(** The states of the task after each iteration of the loop of the media
    worker, up to the one where it returns. *)
Fixpoint ytdlp_trace (lines : list string) (t : Task.t) : list Task.t :=
  match lines with
  | [] => []
  | raw_line :: rest =>
      let (t', returned) := ytdlp_line raw_line t in
      t' :: (if returned then [] else ytdlp_trace rest t')
  end.

(** The fraction a line of output reports, when it is a progress line whose
    percentage parses. *)
Definition line_progress (raw_line : string) : option float :=
  let line := Py.strip raw_line in
  if Py.startswith "[download]" line && Py.contains "%" line
  then pct ← pct_part line ≫= Py.float_of_str; Some (clamp (pct / 100))
  else None.

Fixpoint nondecreasing (l : list float) : bool :=
  match l with
  | x :: (y :: _) as rest => (x <=? y)%float && nondecreasing rest
  | _ => true
  end.

(** The task whose file the sweep looks for under [name]. *)
Definition sweeps (name : string) (task : Task.t) : bool :=
  status_in (Task.status task) [completed; canceled]
  && Py.truthy (Task.filename task)
  && bool_decide (Task.filename task = Some name).

(** ** The registry through the life of the server *)

(** One call of an endpoint, or one thread running its worker to the end.
    Only the registry of the endpoint is taken, and it does not depend on
    what the answer reads. *)
Inductive Operation : Type :=
  | op_start (req : StartRequest.t) (tid : string) (fetched : option string)
  | op_pause (tid : string)
  | op_cancel (tid : string)
  | op_resume (tid : string)
  | op_thread (r : Runner) (env : Env.t) (tid : string)
  | op_clear_completed
  | op_clear_canceled.

Definition perform (op : Operation) (m : Manager) : Manager :=
  match op with
  | op_start req tid fetched => (start_download req tid fetched id m).1.1
  | op_pause tid => (pause_task tid id m).1.1
  | op_cancel tid => (cancel_task tid id m).1.1
  | op_resume tid => (resume_task tid id m).1.1
  | op_thread r env tid => run_thread r env tid m
  | op_clear_completed => clear_completed m
  | op_clear_canceled => clear_canceled m
  end.

(** Every task of the registry is at a point of its lifecycle. *)
Definition registry_ok (m : Manager) : Prop :=
  ∀ tid t, m !! tid = Some t → reachable t.

(** ** The properties of the specification as it states them *)

(** The public path is set exactly on a completed task with a file name. *)
Definition url_iff_completed : Prop :=
  ∀ t, reachable t →
    (Task.download_url t ≠ None ↔ Task.filename t ≠ None ∧ Task.status t = completed).

(** No update made while the task is downloading lowers the progress. *)
Definition progress_monotone : Prop :=
  ∀ t t', reachable t → step t t' →
    Task.status t = downloading → Task.status t' = downloading →
    (Task.progress t <=? Task.progress t')%float = true.

(** What holds of the public path instead. *)
Definition url_invariant (t : Task.t) : Prop :=
  (Task.download_url t ≠ None ↔ Task.filename t ≠ None)
  ∧ (Task.status t = completed → Task.download_url t ≠ None).

(** ** Sample inputs *)

Definition sample_request : StartRequest.t :=
  StartRequest.mk "https://example.org/v" "video" "mp4" "720p".

Definition sample_progress_line : string :=
  "[download]  42.5% of 10.00MiB at 1.20MiB/s ETA 00:30".

Definition sample_destination_line : string :=
  "Destination: " +:+ Py.dquote +:+ "My Video.mp4" +:+ Py.dquote.

(** A line as the pipe gives it, with its end of line, or bare. *)
Definition newline : string := String "010"%char EmptyString.
Definition as_read (eol : bool) (line : string) : string :=
  if eol then line +:+ newline else line.

Definition half_line : string := "[download]  50.0% of 10.00MiB at 1.20MiB/s ETA 00:30".
Definition tenth_line : string := "[download]  10.0% of 3.00MiB at 1.20MiB/s ETA 00:02".

Definition sample_clock : string := "2024-01-01 00:00:00".

Definition no_image : ImageEnv.t := ImageEnv.mk (inl "unused") None [] sample_clock.

Definition ytdlp_env (lines matches : list string) : YtdlpEnv.t :=
  YtdlpEnv.mk (inr lines) matches sample_clock sample_clock.

(** A task whose worker has read a destination line and nothing else. *)
Definition downloading_with_url : Task.t :=
  (ytdlp_line sample_destination_line (worker_begin (Task.init "t1" sample_request))).1.

(** A task paused before its worker reads the first line of output; the
    worker stops at its first check, and the task is resumed. *)
Definition resumed_task : Task.t :=
  request_resume
    (run runner_of_start (Env.mk (ytdlp_env [half_line] []) no_image)
       (request_pause (store_title None (Task.init "t1" sample_request)))).

(** Twenty tasks, all pending. *)
Definition twenty_active : Manager :=
  list_to_map
    (map (λ n, let tid := String (ascii_of_nat (65 + n)) EmptyString in
               (tid, Task.init tid sample_request))
         (seq 0 20)).

(** A task whose category is none of the three. *)
Definition document_task : Task.t :=
  Task.init "t1" (StartRequest.mk "https://example.org/d" "document" "pdf" "").

(** A completed task and its file. *)
Definition completed_task : Task.t :=
  run_ytdlp (ytdlp_env [sample_destination_line] []) (Task.init "t1" sample_request).

Definition one_file (mtime : float) : Storage :=
  {[ "My Video.mp4" := File.mk mtime true ]}.

(** ** The rest of the server *)

(** More of Python's strings and paths. *)
Module PyStr.

(** [str.lower] on one character. *)
Definition lower_char (c : ascii) : ascii :=
  let n := nat_of_ascii c in
  if (Nat.leb 65 n && Nat.leb n 90)
     || (Nat.leb 192 n && Nat.leb n 222 && negb (Nat.eqb n 215))
  then ascii_of_nat (n + 32) else c.

Fixpoint lower (s : string) : string :=
  match s with
  | EmptyString => EmptyString
  | String c s' => String (lower_char c) (lower s')
  end.

(** [re.sub] of a class of characters by one character. *)
Fixpoint sub_chars (class : ascii → bool) (repl : ascii) (s : string) : string :=
  match s with
  | EmptyString => EmptyString
  | String c s' => String (if class c then repl else c) (sub_chars class repl s')
  end.

(** [s.endswith(suffix)]. *)
Fixpoint endswith (suffix s : string) : bool :=
  String.eqb suffix s
  || match s with
     | EmptyString => false
     | String _ s' => endswith suffix s'
     end.

(** [s[:-1]]. *)
Fixpoint drop_last (s : string) : string :=
  match s with
  | EmptyString => EmptyString
  | String c s' =>
      match s' with
      | EmptyString => EmptyString
      | String _ _ => String c (drop_last s')
      end
  end.

(** [os.path.join(a, b)]. *)
Definition path_join (a b : string) : string :=
  if Py.startswith "/" b then b
  else if negb (Py.nonempty a) || endswith "/" a then a +:+ b
  else a +:+ "/" +:+ b.

(** [str(n)] for an [int]. *)
Definition str_of_int (n : Z) : string := NilZero.string_of_int (Z.to_int n).

(** The characters at which [str.splitlines] cuts. *)
Definition line_break (c : ascii) : bool :=
  let n := nat_of_ascii c in
  (Nat.leb 10 n && Nat.leb n 13) || (Nat.leb 28 n && Nat.leb n 30) || Nat.eqb n 133.

(** [s.splitlines()[0]]: [None] is [IndexError], on the empty string. *)
Definition first_line (s : string) : option string :=
  if Py.nonempty s then Some (Py.span (λ c, negb (line_break c)) s).1 else None.

End PyStr.

(** What the machine answers to the helpers: [shutil.which], whether
    [import yt_dlp] succeeds, [sys.executable] and [DOWNLOAD_DIR]. *)
Module Host.
Record t : Type := mk {
  which : string → option string;
  importable : bool;
  executable : string;
  download_dir : string
}.
End Host.

(** Lines 156 and 197: [shutil.which] of [yt-dlp], or else of [yt_dlp]. *)
Definition ytdlp_bin (h : Host.t) : option string :=
  if Py.truthy (Host.which h "yt-dlp") then Host.which h "yt-dlp"
  else Host.which h "yt_dlp".

(** [_bin_exists], lines 152-153. *)
Definition _bin_exists (h : Host.t) (name : string) : bool :=
  bool_decide (Host.which h name ≠ None).

(** [_ytdlp_cmd], lines 155-164. *)
Definition _ytdlp_cmd (h : Host.t) : option (list string) :=
  if Py.truthy (ytdlp_bin h) then Some [default EmptyString (ytdlp_bin h)]
  else if Host.importable h then Some [Host.executable h; "-m"; "yt_dlp"]
  else None.

(** [get_video_title], lines 139-150. [run] is [subprocess.run] with the
    output captured: the return code and the standard output, or [None] for
    an exception, the timeout included. *)
Definition get_video_title (h : Host.t) (run : list string → option (Z * string))
    (url : string) : option string :=
  match _ytdlp_cmd h with
  | None => None
  | Some cmd =>
      match run (cmd ++ ["--get-title"; url]) with
      | Some (returncode, stdout) =>
          if (returncode =? 0)%Z then
            let title := Py.strip stdout in
            if Py.nonempty title then Some title else None
          else None
      | None => None
      end
  end.

(** [_ytdlp_version], lines 166-174. [check_output] is
    [subprocess.check_output]: the output, or [None] for an exception. *)
Definition _ytdlp_version (h : Host.t) (check_output : list string → option string)
  : option string :=
  match _ytdlp_cmd h with
  | None => None
  | Some cmd =>
      match check_output (cmd ++ ["--version"]) with
      | Some out =>
          let v := Py.strip out in
          if Py.nonempty v then Some v else None
      | None => None
      end
  end.

(** [_ffmpeg_version], lines 176-183. *)
Definition _ffmpeg_version (h : Host.t) (check_output : list string → option string)
  : option string :=
  if negb (_bin_exists h "ffmpeg") then None
  else
    match check_output ["ffmpeg"; "-version"] with
    | Some out => PyStr.first_line out
    | None => None
    end.

(** [health], lines 186-191: the three entries of the answer. *)
Definition health (h : Host.t) (check_output : list string → option string)
    (now : string) : option string * option string * string :=
  (_ytdlp_version h check_output, _ffmpeg_version h check_output, now).

(** The command line of the media worker, lines 197-231. *)

(** The class of line 200: backslash, slash, star, question mark, colon,
    double quote, angle brackets and bar. *)
Definition forbidden (c : ascii) : bool :=
  Py.one_of (String Py.backslash "/*?:" +:+ Py.dquote +:+ "<>|") c.

(** Line 200. *)
Definition safe_title (task : Task.t) : string :=
  match Task.title task with
  | Some title =>
      if Py.nonempty title then PyStr.sub_chars forbidden "_" title else Task.id task
  | None => Task.id task
  end.

(** Line 201. *)
Definition outtmpl (h : Host.t) (task : Task.t) : string :=
  PyStr.path_join (Host.download_dir h) (safe_title task +:+ ".%(ext)s").

(** Line 198. *)
Definition base_cmd (h : Host.t) : list string :=
  if Py.truthy (ytdlp_bin h) then [default EmptyString (ytdlp_bin h)]
  else [Host.executable h; "-m"; "yt_dlp"].

(** Lines 210-215. *)
Definition quality_args (task : Task.t) : list string :=
  if String.eqb (Task.category task) "video" && PyStr.endswith "p" (Task.quality task)
  then
    match Py.int_of_str (PyStr.drop_last (Task.quality task)) with
    | Some res => ["-S"; "res:" +:+ PyStr.str_of_int res]
    | None => []
    end
  else [].

Definition in_list (s : string) (l : list string) : bool := existsb (String.eqb s) l.

(** Lines 218-229. *)
Definition format_args (task : Task.t) : list string :=
  if String.eqb (Task.category task) "audio" then
    let afmt := PyStr.lower (Task.fmt task) in
    ["-f"; "bestaudio/best"; "-x"]
    ++ (if in_list afmt ["mp3"; "m4a"; "aac"] then ["--audio-format"; afmt] else [])
  else
    let vfmt := PyStr.lower (Task.fmt task) in
    ["-f"; "bv*+ba/best"]
    ++ (if in_list vfmt ["mp4"; "mkv"; "webm"] then ["--merge-output-format"; vfmt] else []).

(** Lines 207-231. *)
Definition ytdlp_cmd (h : Host.t) (task : Task.t) : list string :=
  base_cmd h ++ ["--newline"; "-o"; outtmpl h task]
  ++ quality_args task ++ format_args task ++ [Task.url task].

(** [run_ytdlp] from its first line: the command is what [Popen] is asked
    to start. *)
Definition launch_ytdlp (h : Host.t) (popen : list string → string + list string)
    (matches : list string) (now1 now2 : string) (task : Task.t) : Task.t :=
  run_ytdlp (YtdlpEnv.mk (popen (ytdlp_cmd h task)) matches now1 now2) task.

(** [start_download] with the title it fetches, lines 426-453. *)
Definition start_download_on (h : Host.t) (run : list string → option (Z * string))
    (req : StartRequest.t) (tid : string) (later : Task.t → Task.t) (m : Manager)
  : Manager * Response * option (Runner * string) :=
  start_download req tid (get_video_title h run (StartRequest.url req)) later m.

(** ** What the further properties speak of *)

(** The fields no worker writes. *)
Definition fixed_fields (t : Task.t) :=
  (Task.id t, Task.url t, Task.category t, Task.fmt t, Task.quality t,
   Task.title t, Task.filepath t, Task.control t).

(** The status a worker leaves for a control request. *)
Definition stopped (c : Control) : Status :=
  match c with pause => paused | cancel => canceled | no_control => downloading end.

(** A chunk that is written without an exception. *)
Definition written (ev : ImageEnv.event) : bool :=
  match ev with
  | ImageEnv.chunk _ None _ => true
  | _ => false
  end.

(** An empty chunk, which the loop of the image worker skips. *)
Definition skipped (ev : ImageEnv.event) : bool :=
  match ev with
  | ImageEnv.chunk [] _ _ => true
  | _ => false
  end.

(** ** More sample inputs *)

Definition sample_image_request : StartRequest.t :=
  StartRequest.mk "https://example.org/p.png" "image" ".png" "".

Definition sample_chunk : ImageEnv.event :=
  ImageEnv.chunk [Byte.x89; Byte.x50; Byte.x4e; Byte.x47] None 0.5.

Definition image_env (content_length : option string) (body : list ImageEnv.event)
  : ImageEnv.t :=
  ImageEnv.mk (inr content_length) None body sample_clock.

(** Twenty pending tasks and one paused. *)
Definition twenty_and_paused : Manager :=
  <["Z" := request_pause (Task.init "Z" sample_request)]> twenty_active.

(** A task whose title has characters of the class. *)
Definition titled_task : Task.t :=
  Task.set_title (Some "a/b: c?") (Task.init "t1" sample_request).

Definition sample_host : Host.t :=
  Host.mk (λ name, if String.eqb name "yt-dlp" then Some "/usr/bin/yt-dlp" else None)
          true "/usr/bin/python3" "/srv/app/downloads".

(** The literals that the selection of the format can put on the command
    line. *)
Definition format_literals : list string :=
  ["-f"; "bestaudio/best"; "-x"; "--audio-format"; "mp3"; "m4a"; "aac";
   "bv*+ba/best"; "--merge-output-format"; "mp4"; "mkv"; "webm"].

(** A decimal numeral, with or without a minus sign. *)
Definition numeral (s : string) : bool :=
  forallb (λ c, Py.isdigit c || Ascii.eqb c "-") (list_ascii_of_string s).

Definition audio_task : Task.t :=
  Task.init "t3" (StartRequest.mk "https://example.org/a" "audio" "MP3" "720p").

(** A probe of the title that prints the title between blanks. *)
Definition title_probe (cmd : list string) : option (Z * string) :=
  Some (0%Z, "  A title" +:+ newline).

(** A video task whose quality is written with blanks, a sign and an
    underscore. *)
Definition odd_quality_task : Task.t :=
  Task.init "t4" (StartRequest.mk "https://example.org/v" "video" "mp4" " +1_080p").

(** * Properties *)

Ltac blocks :=
  unfold parse_progress, parse_eta, parse_destination, parse_merging,
    store_progress, store_speed, store_eta, store_filename in *.

Ltac unfold_blocks :=
  unfold store_title, reject_category, worker_begin, store_progress, store_speed,
    store_eta, store_filename, control_check, ytdlp_finish, worker_error,
    image_progress, image_complete, request_pause, request_cancel,
    request_resume, public_path in *.

(** ** Comparisons of floats *)

Lemma ltb_leb (x y : float) : (x <? y)%float = true → (x <=? y)%float = true.
Proof.
  rewrite ltb_spec, leb_spec. unfold SFltb, SFleb.
  destruct (SFcompare _ _) as [[]|]; congruence.
Qed.

Lemma SFcompare_refl (x : spec_float) :
  x ≠ S754_nan → SFcompare x x = Some Eq.
Proof.
  destruct x as [s|s| |s m e]; simpl; try congruence.
  - destruct s; reflexivity.
  - intros _. rewrite Z.compare_refl.
    assert (H : PosDef.Pos.compare_cont Eq m m = Eq) by apply Pos.compare_cont_refl.
    rewrite H. destruct s; reflexivity.
Qed.

(** A float that is above some float is not a NaN, so it is below itself. *)
Lemma leb_refl_of_leb (a x : float) :
  (a <=? x)%float = true → (x <=? x)%float = true.
Proof.
  rewrite !leb_spec. unfold SFleb. intros H.
  rewrite SFcompare_refl; [done|].
  intros E. rewrite E in H. destruct (Prim2SF a); discriminate.
Qed.

Lemma in_unit_0 : in_unit 0.
Proof. split; reflexivity. Qed.

Lemma in_unit_1 : in_unit 1.
Proof. split; reflexivity. Qed.

(** The clamp of any float, a NaN and the infinities included. *)
Lemma clamp_in_unit (x : float) : in_unit (clamp x).
Proof.
  unfold clamp, Py.max, Py.min.
  destruct (x <? 1)%float eqn:H1.
  - destruct (0 <? x)%float eqn:H0.
    + split; by apply ltb_leb.
    + apply in_unit_0.
  - change (0 <? 1)%float with true. apply in_unit_1.
Qed.

(** ** What one line of output changes *)

Lemma parse_progress_frame line t :
  Task.control (parse_progress line t) = Task.control t
  ∧ Task.status (parse_progress line t) = Task.status t.
Proof. blocks. repeat case_match; simpl; auto. Qed.

Lemma line_frame line t :
  Task.progress (parse_merging line (parse_destination line t)) = Task.progress t.
Proof. blocks. by repeat case_match. Qed.

Lemma parse_progress_progress line t :
  Task.progress (parse_progress line t) =
  default (Task.progress t)
    (pct ← pct_part line ≫= Py.float_of_str; Some (clamp (pct / 100))).
Proof.
  unfold parse_progress. destruct (pct_part line ≫= Py.float_of_str); simpl; [|done].
  blocks. by repeat case_match.
Qed.

Lemma ytdlp_line_progress raw t :
  Task.progress (ytdlp_line raw t).1 = default (Task.progress t) (line_progress raw).
Proof.
  unfold ytdlp_line, line_progress.
  assert (Hc : ∀ t, Task.progress (control_check t).1 = Task.progress t).
  { intros t0. unfold control_check. by destruct (Task.control t0). }
  rewrite Hc, line_frame.
  destruct (_ && _); [apply parse_progress_progress|done].
Qed.

Lemma line_progress_in_unit raw p : line_progress raw = Some p → in_unit p.
Proof.
  unfold line_progress. case_match; [|done].
  destruct (pct_part _ ≫= Py.float_of_str); simpl; [|done].
  intros [= <-]. apply clamp_in_unit.
Qed.

(** With no control request pending, an iteration of the loop goes on to
    the next one and leaves the status as it is. *)
Lemma ytdlp_line_quiet raw t :
  Task.control t = no_control →
  (ytdlp_line raw t).2 = false
  ∧ Task.control (ytdlp_line raw t).1 = no_control
  ∧ Task.status (ytdlp_line raw t).1 = Task.status t.
Proof.
  intros Hc. unfold ytdlp_line, control_check.
  set (line := Py.strip raw).
  assert (H1 : ∀ t1, Task.control t1 = no_control →
    let t2 := parse_merging line (parse_destination line t1) in
    Task.control t2 = no_control ∧ Task.status t2 = Task.status t1).
  { intros t1 H. blocks. repeat case_match; simpl; auto. }
  destruct (parse_progress_frame line t) as (Hpc & Hps).
  destruct (_ && _).
  - destruct (H1 (parse_progress line t)) as [H2 H3]; [congruence|].
    simpl in H2, H3. rewrite H2. simpl. repeat split; congruence.
  - destruct (H1 t Hc) as [H2 H3]. simpl in H2, H3. rewrite H2. simpl. done.
Qed.

Lemma ytdlp_stream_quiet lines t :
  Task.control t = no_control →
  (ytdlp_stream lines t).2 = false
  ∧ Task.control (ytdlp_stream lines t).1 = no_control
  ∧ Task.status (ytdlp_stream lines t).1 = Task.status t.
Proof.
  revert t. induction lines as [|raw rest IH]; intros t Hc; simpl; [done|].
  destruct (ytdlp_line_quiet raw t Hc) as (H1 & H2 & H3).
  destruct (ytdlp_line raw t) as [t' r]; simpl in *. subst r.
  destruct (IH t' H2) as (? & ? & ?). repeat split; congruence.
Qed.

(** ** The lifecycle *)

Lemma reachable_init tid req : reachable (Task.init tid req).
Proof. by exists tid, req. Qed.

Lemma reachable_step t t' : reachable t → step t t' → reachable t'.
Proof. intros (tid & req & H) Hs. exists tid, req. by eapply rtc_r. Qed.

Lemma reachable_steps t t' : reachable t → rtc step t t' → reachable t'.
Proof. intros (tid & req & H) Hs. exists tid, req. by etrans. Qed.

Lemma lifecycle_invariant (P : Task.t → Prop) :
  (∀ tid req, P (Task.init tid req)) →
  (∀ t t', P t → step t t' → P t') →
  ∀ t, reachable t → P t.
Proof.
  intros Hi Hs t (tid & req & H). revert t H.
  apply rtc_ind_r; eauto.
Qed.

(** The workers and the threads only take steps of the lifecycle. *)

Lemma parse_progress_steps line t : rtc step t (parse_progress line t).
Proof.
  unfold parse_progress, parse_eta. repeat case_match;
    repeat first [reflexivity | eapply rtc_r; [|constructor]].
Qed.

Lemma ytdlp_line_steps raw t : rtc step t (ytdlp_line raw t).1.
Proof.
  unfold ytdlp_line. eapply rtc_r; [|apply step_control].
  set (line := Py.strip raw).
  set (t1 := if Py.startswith "[download]" line && Py.contains "%" line
             then parse_progress line t else t).
  transitivity t1; [|transitivity (parse_destination line t1)].
  - subst t1. case_match; [apply parse_progress_steps|reflexivity].
  - unfold parse_destination. repeat case_match; try reflexivity.
    apply rtc_once. constructor.
  - unfold parse_merging. repeat case_match; try reflexivity.
    apply rtc_once. constructor.
Qed.

Lemma ytdlp_stream_steps lines t : rtc step t (ytdlp_stream lines t).1.
Proof.
  revert t. induction lines as [|raw rest IH]; intros t; simpl; [reflexivity|].
  pose proof (ytdlp_line_steps raw t) as H.
  destruct (ytdlp_line raw t) as [t' r]; simpl in *.
  destruct r; [done|]. by etrans.
Qed.

Lemma run_ytdlp_steps env t : rtc step t (run_ytdlp env t).
Proof.
  unfold run_ytdlp. eapply rtc_l; [apply step_begin|].
  destruct (YtdlpEnv.popen env) as [msg|lines].
  - apply rtc_once. constructor.
  - pose proof (ytdlp_stream_steps lines (worker_begin t)) as H.
    destruct (ytdlp_stream lines (worker_begin t)) as [t1 r]; simpl in *.
    destruct r; [done|]. etrans; [exact H|].
    eapply rtc_r; [|apply step_finish].
    unfold glob_fallback. repeat case_match; try reflexivity.
    apply rtc_once. constructor.
Qed.

Lemma image_stream_steps total body downloaded t :
  rtc step t (image_stream total body downloaded t).1.
Proof.
  revert downloaded t. induction body as [|ev rest IH]; intros downloaded t; simpl;
    [reflexivity|].
  destruct ev as [data write_error elapsed|msg]; [|reflexivity].
  destruct data as [|b data]; [apply IH|].
  pose proof (step_control t) as Hc.
  destruct (control_check t) as [t1 r]; simpl in *.
  destruct r; [by apply rtc_once|].
  destruct write_error; [by apply rtc_once|].
  destruct (total =? 0)%Z.
  - eapply rtc_l; [exact Hc|]. apply IH.
  - match goal with |- context [image_progress ?d total elapsed t1] =>
      pose proof (step_image_progress t1 d total elapsed) as Hp;
      destruct (image_progress d total elapsed t1) as [t2 [msg|]] end; simpl in *.
    + eapply rtc_l; [exact Hc|]. by apply rtc_once.
    + eapply rtc_l; [exact Hc|]. eapply rtc_l; [exact Hp|]. apply IH.
Qed.

Lemma run_image_steps env t : rtc step t (run_image env t).
Proof.
  unfold run_image. eapply rtc_l; [apply step_begin|].
  destruct (ImageEnv.response env) as [msg|h]; [apply rtc_once; constructor|].
  destruct (image_total h) as [msg|total]; [apply rtc_once; constructor|].
  destruct (ImageEnv.open_error env); [apply rtc_once; constructor|].
  pose proof (image_stream_steps total (ImageEnv.body env) 0 (worker_begin t)) as H.
  destruct (image_stream _ _ _ _) as [t1 [| |msg]]; simpl in *.
  - eapply rtc_r; [exact H|constructor].
  - done.
  - eapply rtc_r; [exact H|constructor].
Qed.

Lemma run_steps r env t : rtc step t (run r env t).
Proof.
  destruct r; simpl; unfold start_runner, resume_runner;
    repeat case_match;
    auto using run_ytdlp_steps, run_image_steps, rtc_once, step_reject, rtc_refl.
Qed.

(** Every task of the registry is at a point of its lifecycle, whatever the
    endpoints called and the threads run. *)

Lemma registry_ok_insert (m : Manager) tid t :
  registry_ok m → reachable t → registry_ok (<[tid := t]> m).
Proof.
  intros Hm Ht k t'. rewrite lookup_insert. case_decide; [|apply Hm].
  by intros [= <-].
Qed.

Lemma perform_registry_ok op (m : Manager) :
  registry_ok m → registry_ok (perform op m).
Proof.
  intros Hm. destruct op as [req tid fetched|tid|tid|tid|r env tid| |]; simpl.
  - unfold start_download. case_match; simpl; [done|].
    apply registry_ok_insert; [done|].
    eapply reachable_step; [apply reachable_init|apply step_title].
  - unfold pause_task. destruct (m !! tid) eqn:E; simpl; [|done].
    apply registry_ok_insert; [done|].
    eapply reachable_step; [by eapply Hm|apply step_pause].
  - unfold cancel_task. destruct (m !! tid) eqn:E; simpl; [|done].
    apply registry_ok_insert; [done|].
    eapply reachable_step; [by eapply Hm|apply step_cancel].
  - unfold resume_task. destruct (m !! tid) eqn:E; simpl; [|done].
    apply registry_ok_insert; [done|].
    eapply reachable_step; [by eapply Hm|apply step_resume].
  - unfold run_thread. destruct (m !! tid) eqn:E; [|done].
    apply registry_ok_insert; [done|].
    eapply reachable_steps; [by eapply Hm|apply run_steps].
  - intros k t [H _]%map_lookup_filter_Some. by eapply Hm.
  - intros k t [H _]%map_lookup_filter_Some. by eapply Hm.
Qed.

Lemma registry_ok_always (ops : list Operation) :
  registry_ok (foldl (λ m op, perform op m) ∅ ops).
Proof.
  induction ops as [|op ops IH] using rev_ind; simpl.
  - intros tid t. by rewrite lookup_empty.
  - rewrite foldl_app. simpl. by apply perform_registry_ok.
Qed.

Lemma step_progress_in_unit t t' :
  in_unit (Task.progress t) → step t t' → in_unit (Task.progress t').
Proof.
  intros Hp Hs.
  destruct Hs; unfold_blocks; repeat case_match; simpl;
    auto using clamp_in_unit, in_unit_0, in_unit_1.
Qed.

Lemma step_url_invariant t t' : url_invariant t → step t t' → url_invariant t'.
Proof.
  unfold url_invariant. intros [H1 H2] Hs.
  destruct Hs; unfold_blocks; repeat case_match; simpl in *;
    try (split; [split|]; intros; congruence); try (split; [tauto|congruence]);
    try tauto.
  destruct (Task.filename t); [|discriminate].
  split; [split|]; intros; congruence.
Qed.

Lemma downloading_with_url_reachable : reachable downloading_with_url.
Proof.
  unfold downloading_with_url.
  eapply reachable_steps; [|apply ytdlp_line_steps].
  eapply reachable_step; [|apply step_begin].
  apply reachable_init.
Qed.

Lemma resumed_task_reachable : reachable resumed_task.
Proof.
  unfold resumed_task.
  eapply reachable_step; [|apply step_resume].
  eapply reachable_steps; [|apply run_steps].
  eapply reachable_step; [|apply step_pause].
  eapply reachable_step; [|apply step_title].
  apply reachable_init.
Qed.

Lemma completed_task_reachable : reachable completed_task.
Proof.
  unfold completed_task.
  eapply reachable_steps; [apply reachable_init|apply run_ytdlp_steps].
Qed.

(** ** The properties of the specification *)

(** C1, as the code has it. At every point of the lifecycle of a task the
    public path [download_url] is set if and only if [filename] is set,
    whatever the status: the two are written in the same block. A task in
    status [completed] has both. *)
Theorem url_iff_filename (t : Task.t) :
  reachable t →
  (Task.download_url t ≠ None ↔ Task.filename t ≠ None)
  ∧ (Task.status t = completed → Task.download_url t ≠ None).
Proof.
  revert t. apply (lifecycle_invariant url_invariant).
  - intros. split; [split|]; simpl; intros; congruence.
  - apply step_url_invariant.
Qed.

Lemma url_iff_filename_witness :
  reachable completed_task
  ∧ (Task.download_url completed_task ≠ None ↔ Task.filename completed_task ≠ None)
  ∧ (Task.status completed_task = completed → Task.download_url completed_task ≠ None).
Proof.
  split; [apply completed_task_reachable|].
  apply (url_iff_filename completed_task), completed_task_reachable.
Defined.

(** C1, as the specification states it, fails: once the media worker has
    read a destination line the public path is set, and the task is still
    in status [downloading]. *)
Lemma url_before_completion :
  reachable downloading_with_url
  ∧ Task.filename downloading_with_url = Some "My Video.mp4"
  ∧ Task.download_url downloading_with_url = Some "/downloads/My Video.mp4"
  ∧ Task.status downloading_with_url = downloading
  ∧ ¬ url_iff_completed.
Proof.
  split; [apply downloading_with_url_reachable|].
  split; [reflexivity|]. split; [reflexivity|]. split; [reflexivity|].
  intros H. destruct (H _ downloading_with_url_reachable) as [H1 _].
  destruct H1 as [_ H1]; [done|]. discriminate H1.
Qed.

(** ** Progress over a run *)

Lemma nondecreasing_cons x y l :
  nondecreasing (x :: y :: l) = ((x <=? y)%float && nondecreasing (y :: l)).
Proof. reflexivity. Qed.

Lemma omap_line_progress_cons raw rest :
  omap line_progress (raw :: rest) =
  match line_progress raw with
  | Some p => p :: omap line_progress rest
  | None => omap line_progress rest
  end.
Proof. reflexivity. Qed.

Lemma omap_line_progress_head lines p l :
  omap line_progress lines = p :: l → in_unit p.
Proof.
  induction lines as [|raw rest IH]; [done|].
  rewrite omap_line_progress_cons.
  destruct (line_progress raw) eqn:E; [|done].
  intros [= -> _]. by eapply line_progress_in_unit.
Qed.

Lemma nondecreasing_trace lines t :
  (Task.progress t <=? Task.progress t)%float = true →
  nondecreasing (Task.progress t :: omap line_progress lines) = true →
  nondecreasing (Task.progress t :: map Task.progress (ytdlp_trace lines t)) = true.
Proof.
  revert t. induction lines as [|raw rest IH]; intros t Hr H; [done|].
  cbn [ytdlp_trace]. rewrite omap_line_progress_cons in H.
  pose proof (ytdlp_line_progress raw t) as Hp.
  destruct (ytdlp_line raw t) as [t' r]; simpl in Hp.
  assert (Hn : (Task.progress t <=? Task.progress t')%float = true
               ∧ (Task.progress t' <=? Task.progress t')%float = true
               ∧ nondecreasing (Task.progress t' :: omap line_progress rest) = true).
  { destruct (line_progress raw) as [p|] eqn:Hl; simpl in Hp; rewrite Hp.
    - rewrite nondecreasing_cons in H. apply andb_true_iff in H as [H1 H2].
      split; [done|]. split; [|done].
      apply line_progress_in_unit in Hl as [H0 _]. by eapply leb_refl_of_leb.
    - done. }
  destruct Hn as (H1 & H2 & H3).
  cbn [map]. rewrite nondecreasing_cons, H1. simpl.
  destruct r; [done|]. by apply IH.
Qed.

(** C2, as the code has it. A worker that starts, a relaunch by resume
    included, first sets the progress to 0.0; each line of output then
    leaves it, or overwrites it with the clamped fraction the line reports.
    So over one run of the media worker the progress is non-decreasing when
    the fractions that the successive progress lines report are. *)
Theorem progress_follows_output (lines : list string) (task : Task.t) :
  nondecreasing (omap line_progress lines) = true →
  Task.progress (worker_begin task) = 0%float
  ∧ (∀ raw t, Task.progress (ytdlp_line raw t).1
              = default (Task.progress t) (line_progress raw))
  ∧ nondecreasing
      (map Task.progress (worker_begin task :: ytdlp_trace lines (worker_begin task)))
    = true.
Proof.
  intros H. split; [done|]. split; [apply ytdlp_line_progress|].
  cbn [map]. apply nondecreasing_trace; [done|].
  change (Task.progress (worker_begin task)) with 0%float.
  destruct (omap line_progress lines) as [|p l] eqn:Ho; [done|].
  rewrite nondecreasing_cons, H, andb_true_r.
  by apply omap_line_progress_head in Ho as [? _].
Qed.

Lemma progress_follows_output_witness :
  nondecreasing (omap line_progress [tenth_line; sample_destination_line; half_line]) = true
  ∧ map Task.progress
      (ytdlp_trace [tenth_line; sample_destination_line; half_line]
         (worker_begin resumed_task)) = [0.1; 0.1; 0.5]%float
  ∧ nondecreasing
      (map Task.progress
         (worker_begin resumed_task
          :: ytdlp_trace [tenth_line; sample_destination_line; half_line]
               (worker_begin resumed_task))) = true.
Proof.
  split; [vm_compute; reflexivity|]. split; [vm_compute; reflexivity|].
  apply (progress_follows_output [tenth_line; sample_destination_line; half_line]
           resumed_task).
  vm_compute; reflexivity.
Defined.

(** C2, as the specification states it, fails. A task paused at one half
    and resumed is in status [downloading] with progress 0.5; the first
    update of the relaunched worker keeps the status and sets the progress
    to 0.0. *)
Lemma relaunch_resets_progress :
  reachable resumed_task
  ∧ Task.status resumed_task = downloading
  ∧ Task.progress resumed_task = 0.5%float
  ∧ step resumed_task (worker_begin resumed_task)
  ∧ Task.status (worker_begin resumed_task) = downloading
  ∧ Task.progress (worker_begin resumed_task) = 0%float
  ∧ ¬ progress_monotone.
Proof.
  split; [apply resumed_task_reachable|].
  split; [reflexivity|]. split; [vm_compute; reflexivity|].
  split; [apply step_begin|]. split; [reflexivity|]. split; [reflexivity|].
  intros H.
  specialize (H resumed_task (worker_begin resumed_task) resumed_task_reachable
                (step_begin _) eq_refl eq_refl).
  vm_compute in H. discriminate H.
Qed.

(** Within one run too: a progress line that reports less lowers the
    progress. *)
Lemma output_lowers_progress :
  map Task.progress
    (ytdlp_trace [half_line; tenth_line] (worker_begin (Task.init "t1" sample_request)))
  = [0.5; 0.1]%float.
Proof. vm_compute. reflexivity. Qed.

(** C3. At every point of the lifecycle of a task the stored progress lies
    in the closed interval from 0.0 to 1.0, and so it does after one more
    block under the lock and after a whole run of either worker: what a
    worker writes is 0.0, 1.0 or a clamped value. *)
Theorem progress_in_unit (t : Task.t) :
  reachable t →
  in_unit (Task.progress t)
  ∧ (∀ t', step t t' → in_unit (Task.progress t'))
  ∧ (∀ env, in_unit (Task.progress (run_ytdlp env t)))
  ∧ (∀ env, in_unit (Task.progress (run_image env t))).
Proof.
  assert (H : ∀ t, reachable t → in_unit (Task.progress t)).
  { apply (lifecycle_invariant (λ t, in_unit (Task.progress t))).
    - intros. apply in_unit_0.
    - apply step_progress_in_unit. }
  intros Ht. split; [by apply H|]. split; [|split].
  - intros t' Hs. by eapply H, reachable_step.
  - intros env. eapply H, reachable_steps; [done|apply run_ytdlp_steps].
  - intros env. eapply H, reachable_steps; [done|apply run_image_steps].
Qed.

Lemma progress_in_unit_witness :
  reachable resumed_task
  ∧ in_unit (Task.progress resumed_task)
  ∧ in_unit (Task.progress (run_ytdlp (ytdlp_env [sample_progress_line] []) resumed_task)).
Proof.
  split; [apply resumed_task_reachable|].
  destruct (progress_in_unit resumed_task resumed_task_reachable) as (H1 & _ & H2 & _).
  split; [exact H1|apply H2].
Defined.

(** C4. The line [[download]  42.5% of 10.00MiB at 1.20MiB/s ETA 00:30]
    sets the progress to 0.425, the speed to 1.2 * 1024 ** 2 bytes per
    second and the ETA to 30 seconds. *)
Theorem progress_line_parsed (t : Task.t) (eol : bool) :
  let t' := (ytdlp_line (as_read eol sample_progress_line) t).1 in
  Task.progress t' = 0.425%float
  ∧ Task.speed t' = Some (1.2 * 1048576)%float
  ∧ Task.eta t' = Some 30%Z.
Proof.
  destruct t as [? ? ? ? ? ? ? ? ? ? ? c ? ? ? ?]; destruct c, eol; vm_compute; auto.
Qed.

(** C5. When the output of the media worker ends and no pause or cancel was
    requested, a task whose file name is resolved, from the output or by the
    search of the download directory, ends [completed] with a completion
    time and a public path; any other ends in [error] with the message
    [Download finished but file not found]. *)
Theorem stream_exhausted (env : YtdlpEnv.t) (lines : list string) (task : Task.t) :
  YtdlpEnv.popen env = inr lines →
  Task.control task = no_control →
  let resolved :=
    glob_fallback (YtdlpEnv.matches env) (ytdlp_stream lines (worker_begin task)).1 in
  let t' := run_ytdlp env task in
  Task.filename t' = Task.filename resolved
  ∧ (Py.truthy (Task.filename resolved) = true →
       Task.status t' = completed
       ∧ Task.downloaded_at t' = Some (YtdlpEnv.now2 env)
       ∧ ∃ name, Task.filename t' = Some name
                 ∧ Task.download_url t' = Some ("/downloads/" +:+ name))
  ∧ (Py.truthy (Task.filename resolved) = false →
       Task.status t' = error
       ∧ Task.message t' = Some "Download finished but file not found"
       ∧ Task.status t' ≠ completed).
Proof.
  intros Hp Hc resolved t'. subst t'. unfold run_ytdlp. rewrite Hp.
  destruct (ytdlp_stream_quiet lines (worker_begin task) Hc) as (Hr & _ & Hs).
  subst resolved.
  destruct (ytdlp_stream lines (worker_begin task)) as [t1 r]; simpl in *. subst r.
  assert (Hg : Task.status (glob_fallback (YtdlpEnv.matches env) t1) = downloading).
  { unfold glob_fallback, store_filename. repeat case_match; simpl; exact Hs. }
  set (t2 := glob_fallback _ t1) in *.
  unfold ytdlp_finish. rewrite Hg. simpl.
  destruct (Task.filename t2) as [name|] eqn:Hf; simpl.
  - destruct (Py.nonempty name) eqn:Hn; simpl; rewrite ?Hf; simpl; rewrite ?Hn; simpl.
    + split; [done|]. split; [|done]. intros _. split; [done|]. split; [done|].
      exists name. split; [done|]. unfold public_path; simpl. by rewrite Hf.
    + rewrite Hf. split; [done|]. split; [done|]. intros _. done.
  - rewrite Hf. split; [done|]. split; [done|]. done.
Qed.

Lemma stream_exhausted_witness :
  YtdlpEnv.popen (ytdlp_env [sample_progress_line] ["/srv/downloads/t1.webm"])
    = inr [sample_progress_line]
  ∧ Task.control (Task.init "t1" sample_request) = no_control
  ∧ Task.status
      (run_ytdlp (ytdlp_env [sample_progress_line] ["/srv/downloads/t1.webm"])
         (Task.init "t1" sample_request)) = completed
  ∧ Task.status
      (run_ytdlp (ytdlp_env [sample_progress_line] []) (Task.init "t1" sample_request))
    = error.
Proof.
  split; [reflexivity|]. split; [reflexivity|]. split.
  - destruct (stream_exhausted
                (ytdlp_env [sample_progress_line] ["/srv/downloads/t1.webm"])
                [sample_progress_line] (Task.init "t1" sample_request) eq_refl eq_refl)
      as (_ & H & _).
    apply H. vm_compute. reflexivity.
  - destruct (stream_exhausted (ytdlp_env [sample_progress_line] [])
                [sample_progress_line] (Task.init "t1" sample_request) eq_refl eq_refl)
      as (_ & _ & H).
    apply H. vm_compute. reflexivity.
Defined.

(** C6. With 20 tasks in status [pending] or [downloading], a start request
    raises the client error 429 whose message names the cap of 20; it
    creates no task and starts no thread, and the registry is the one it
    found, of the same size. *)
Theorem start_rate_limited (req : StartRequest.t) (tid : string)
    (fetched : option string) (later : Task.t → Task.t) (m : Manager) :
  length (active_tasks m) = 20 →
  ∃ e, start_download req tid fetched later m = (m, raised e, None)
       ∧ status_code e = 429%Z
       ∧ Py.contains "max 20" (detail e) = true
       ∧ size (start_download req tid fetched later m).1.1 = size m.
Proof.
  intros H. unfold start_download. rewrite H. simpl.
  eexists. split; [reflexivity|]. simpl. repeat split.
Qed.

Lemma start_rate_limited_witness :
  length (active_tasks twenty_active) = 20
  ∧ size twenty_active = 20
  ∧ ∃ e, start_download sample_request "U" None id twenty_active
           = (twenty_active, raised e, None)
         ∧ status_code e = 429%Z
         ∧ Py.contains "max 20" (detail e) = true
         ∧ size (start_download sample_request "U" None id twenty_active).1.1
           = size twenty_active.
Proof.
  split; [vm_compute; reflexivity|]. split; [vm_compute; reflexivity|].
  apply (start_rate_limited sample_request "U" None id twenty_active).
  vm_compute; reflexivity.
Defined.

(** A worker that goes through a line of its output with a cancel pending
    leaves its loop there, with the status [canceled]. *)
Lemma line_after_cancel raw t :
  Task.control t = cancel →
  (ytdlp_line raw t).2 = true ∧ Task.status (ytdlp_line raw t).1 = canceled.
Proof.
  intros Hc.
  assert (H : ∀ t1 : Task.t, Task.control t1 = cancel →
            (control_check t1).2 = true ∧ Task.status (control_check t1).1 = canceled).
  { intros t1 H1. unfold control_check. by rewrite H1. }
  unfold ytdlp_line. apply H. rewrite <- Hc.
  unfold parse_merging, parse_destination, parse_progress, parse_eta,
    store_progress, store_speed, store_eta, store_filename.
  repeat case_match; reflexivity.
Qed.

(** C7. For a task id present in the registry, cancel leaves the task
    stored with the status [canceled] and the control [cancel], and every
    other task as it was; a second cancel in succession raises nothing,
    leaves the registry as the first left it, and the task [canceled]
    again. With no thread writing between the block and the reading of the
    record, both calls return the same record, of status [canceled], the
    one a status request gives afterwards. Whatever the threads do in
    between, each call returns the record of the task as it is when read;
    a worker that goes through a line of its output in between leaves the
    status [canceled] too. *)
Theorem cancel_twice (tid : string) (m : Manager) (later1 later2 : Task.t → Task.t) :
  is_Some (m !! tid) →
  ∃ s t1 m1,
    (cancel_task tid id m = (m1, returned s, None)
     ∧ cancel_task tid id m1 = (m1, returned s, None)
     ∧ TaskStatus.status s = canceled)
    ∧ (m1 !! tid = Some t1
       ∧ Task.status t1 = canceled
       ∧ Task.control t1 = cancel
       ∧ get_status tid m1 = returned s
       ∧ ∀ tid', tid' ≠ tid → m1 !! tid' = m !! tid')
    ∧ (cancel_task tid later1 m = (m1, returned (Task.to_status (later1 t1)), None)
       ∧ cancel_task tid later2 m1 = (m1, returned (Task.to_status (later2 t1)), None))
    ∧ (∀ raw, (ytdlp_line raw t1).2 = true
              ∧ Task.status (ytdlp_line raw t1).1 = canceled).
Proof.
  intros [task Ht].
  exists (Task.to_status (request_cancel task)), (request_cancel task),
    (<[tid := request_cancel task]> m).
  assert (H1 : ∀ later, cancel_task tid later m
            = (<[tid := request_cancel task]> m,
               returned (Task.to_status (later (request_cancel task))), None)).
  { intros later. unfold cancel_task. by rewrite Ht. }
  assert (H2 : ∀ later, cancel_task tid later (<[tid := request_cancel task]> m)
            = (<[tid := request_cancel task]> m,
               returned (Task.to_status (later (request_cancel task))), None)).
  { intros later. unfold cancel_task. rewrite lookup_insert_eq.
    by rewrite insert_insert_eq. }
  split; [split; [apply (H1 id)|split; [apply (H2 id)|done]]|].
  split.
  - split; [apply lookup_insert_eq|]. split; [done|]. split; [done|]. split.
    + unfold get_status. by rewrite lookup_insert_eq.
    + intros tid' Hne. by rewrite lookup_insert_ne.
  - split; [split; [apply H1|apply H2]|].
    intros raw. by apply line_after_cancel.
Qed.

Lemma cancel_twice_witness :
  is_Some (twenty_active !! "C")
  ∧ ∃ s t1 m1,
      (cancel_task "C" id twenty_active = (m1, returned s, None)
       ∧ cancel_task "C" id m1 = (m1, returned s, None)
       ∧ TaskStatus.status s = canceled)
      ∧ m1 !! "C" = Some t1
      ∧ Task.status t1 = canceled.
Proof.
  assert (H : is_Some (twenty_active !! "C")) by (vm_compute; eauto).
  split; [exact H|].
  destruct (cancel_twice "C" twenty_active id id H)
    as (s & t1 & m1 & H1 & (H2 & H3 & _) & _).
  exists s, t1, m1. split; [exact H1|]. split; [exact H2|exact H3].
Defined.

(** ** The sweep *)

Lemma sweep_task_lookup now task (files : Storage) n :
  sweep_task now task files !! n =
  f ← files !! n;
  if sweeps n task && (600 <? now - File.mtime f)%float && File.removable f
  then None else Some f.
Proof.
  unfold sweep_task, sweeps.
  destruct (status_in _ _ && Py.truthy _) eqn:Hs; simpl.
  - destruct (Task.filename task) as [name|] eqn:Hf; simpl.
    + destruct (decide (name = n)) as [->|Hne].
      * rewrite bool_decide_eq_true_2 by done.
        destruct (files !! n) as [f|] eqn:Hl; simpl; [|done].
        destruct (600 <? _)%float; simpl; [|done].
        destruct (File.removable f); simpl; [|done].
        apply lookup_delete_eq.
      * rewrite bool_decide_eq_false_2 by congruence.
        destruct (files !! name) as [f|] eqn:Hl; simpl.
        -- destruct (600 <? _)%float; simpl.
           ++ destruct (File.removable f); simpl.
              ** rewrite lookup_delete_ne by done. by destruct (files !! n).
              ** by destruct (files !! n).
           ++ by destruct (files !! n).
        -- by destruct (files !! n).
    + rewrite andb_false_r in Hs. done.
  - by destruct (files !! n).
Qed.

Lemma cleanup_list_lookup now (l : list (string * Task.t)) (files : Storage) n :
  fold_left (λ fs kt, sweep_task now kt.2 fs) l files !! n =
  f ← files !! n;
  if existsb (λ kt, sweeps n kt.2) l && (600 <? now - File.mtime f)%float
     && File.removable f
  then None else Some f.
Proof.
  revert files. induction l as [|kt l IH]; intros files; simpl.
  - by destruct (files !! n).
  - rewrite IH, sweep_task_lookup.
    destruct (files !! n) as [f|]; simpl; [|done].
    destruct (sweeps n kt.2), (existsb _ l), (600 <? _)%float eqn:Ha,
      (File.removable f) eqn:Hr; simpl; rewrite ?Ha, ?Hr; done.
Qed.

(** C8. For a task in status [completed] or [canceled] whose file name is
    known and whose file exists and can be removed, one pass of the sweep
    removes the file exactly when [now - mtime], as the code computes it, is
    above 600: at 601 seconds the file is removed, at 599 it stays. *)
Theorem sweep_removes_old_artifact (now : float) (m : Manager) (files : Storage)
    (tid name : string) (task : Task.t) (f : File.t) :
  m !! tid = Some task →
  Task.status task = completed ∨ Task.status task = canceled →
  Task.filename task = Some name →
  name ≠ EmptyString →
  files !! name = Some f →
  File.removable f = true →
  (cleanup_pass now m files !! name = None ↔ (600 <? now - File.mtime f)%float = true)
  ∧ ((now - File.mtime f)%float = 601%float → cleanup_pass now m files !! name = None)
  ∧ ((now - File.mtime f)%float = 599%float → cleanup_pass now m files !! name = Some f).
Proof.
  intros Hm Hs Hf Hn Hl Hr.
  assert (He : existsb (λ kt, sweeps name kt.2) (map_to_list m) = true).
  { apply existsb_exists. exists (tid, task). split.
    - apply list_elem_of_In, elem_of_map_to_list, Hm.
    - unfold sweeps. simpl. rewrite Hf. simpl.
      rewrite bool_decide_eq_true_2 by done.
      destruct name; [done|]. simpl. rewrite !andb_true_r.
      by destruct Hs as [-> | ->]. }
  unfold cleanup_pass. rewrite cleanup_list_lookup, Hl. simpl.
  rewrite He, Hr, andb_true_r. simpl.
  split; [|split].
  - destruct (600 <? _)%float; naive_solver.
  - intros ->. reflexivity.
  - intros ->. reflexivity.
Qed.

Lemma sweep_removes_old_artifact_witness :
  ({[ "t1" := completed_task ]} : Manager) !! "t1" = Some completed_task
  ∧ Task.status completed_task = completed
  ∧ Task.filename completed_task = Some "My Video.mp4"
  ∧ cleanup_pass 1700000601 {[ "t1" := completed_task ]} (one_file 1700000000)
      !! "My Video.mp4" = None
  ∧ cleanup_pass 1700000599 {[ "t1" := completed_task ]} (one_file 1700000000)
      !! "My Video.mp4" = Some (File.mk 1700000000 true).
Proof.
  assert (Hn : "My Video.mp4" ≠ EmptyString) by discriminate.
  assert (Hm : ({[ "t1" := completed_task ]} : Manager) !! "t1" = Some completed_task)
    by reflexivity.
  assert (Hf : one_file 1700000000 !! "My Video.mp4" = Some (File.mk 1700000000 true))
    by reflexivity.
  split; [exact Hm|]. split; [reflexivity|]. split; [reflexivity|]. split.
  - apply (sweep_removes_old_artifact 1700000601 _ _ "t1" "My Video.mp4" _ _
             Hm (or_introl eq_refl) eq_refl Hn Hf eq_refl).
    reflexivity.
  - apply (sweep_removes_old_artifact 1700000599 _ _ "t1" "My Video.mp4" _ _
             Hm (or_introl eq_refl) eq_refl Hn Hf eq_refl).
    reflexivity.
Defined.

(** C9. The line [Destination:] followed by the name [My Video.mp4] between
    double quotes sets the file name to [My Video.mp4], without the quotes,
    and leaves the title as it was. *)
Theorem destination_line_sets_filename (t : Task.t) (eol : bool) :
  let t' := (ytdlp_line (as_read eol sample_destination_line) t).1 in
  Task.filename t' = Some "My Video.mp4"
  ∧ Task.title t' = Task.title t.
Proof.
  destruct t as [? ? ? ? ? ? ? ? ? ? ? c ? ? ? ?]; destruct c, eol; vm_compute; auto.
Qed.

Lemma not_supported (category : string) :
  category ∉ ["video"; "audio"; "image"] →
  is_media category = false ∧ String.eqb category "image" = false.
Proof.
  intros H. unfold is_media.
  rewrite !not_elem_of_cons in H. destruct H as (H1 & H2 & H3 & _).
  apply String.eqb_neq in H1, H2, H3. by rewrite H1, H2, H3.
Qed.

(** C10. For a task whose category is none of [video], [audio], [image],
    resume sets the status to [downloading] and starts a thread that
    changes nothing: the task stays [downloading] and no message is
    written. The thread of start marks such a task [error] with the message
    [Unsupported category]. *)
Theorem resume_unsupported_category (tid : string) (task : Task.t)
    (later : Task.t → Task.t) (m : Manager) :
  m !! tid = Some task →
  Task.category task ∉ ["video"; "audio"; "image"] →
  ∃ m1 t1 s,
    resume_task tid later m = (m1, returned s, Some (runner_of_resume, tid))
    ∧ m1 !! tid = Some t1
    ∧ Task.status t1 = downloading
    ∧ Task.message t1 = Task.message task
    ∧ (∀ env, run_thread runner_of_resume env tid m1 = m1)
    ∧ (∀ env, Task.status (start_runner env task) = error
              ∧ Task.message (start_runner env task) = Some "Unsupported category").
Proof.
  intros Ht Hc. destruct (not_supported _ Hc) as [H1 H2].
  unfold resume_task. rewrite Ht.
  eexists _, _, _. split; [reflexivity|].
  split; [apply lookup_insert_eq|]. split; [done|]. split; [done|]. split.
  - intros env. unfold run_thread. rewrite lookup_insert_eq. simpl.
    unfold resume_runner. simpl. rewrite H1, H2. by rewrite insert_insert_eq.
  - intros env. unfold start_runner. by rewrite H1, H2.
Qed.

Lemma resume_unsupported_category_witness :
  ({[ "t1" := document_task ]} : Manager) !! "t1" = Some document_task
  ∧ (Task.category document_task ∉ ["video"; "audio"; "image"])
  ∧ ∃ m1 t1 s,
      resume_task "t1" id ({[ "t1" := document_task ]} : Manager)
        = (m1, returned s, Some (runner_of_resume, "t1"))
      ∧ m1 !! "t1" = Some t1
      ∧ Task.status t1 = downloading
      ∧ Task.message t1 = Task.message document_task
      ∧ (∀ env, run_thread runner_of_resume env "t1" m1 = m1)
      ∧ (∀ env, Task.status (start_runner env document_task) = error
                ∧ Task.message (start_runner env document_task)
                  = Some "Unsupported category").
Proof.
  assert (H : Task.category document_task ∉ ["video"; "audio"; "image"]).
  { simpl. rewrite !not_elem_of_cons. repeat split; try discriminate.
    apply not_elem_of_nil. }
  split; [reflexivity|]. split; [exact H|].
  exact (resume_unsupported_category "t1" document_task id
           {[ "t1" := document_task ]} eq_refl H).
Defined.

(** * Further properties *)

(** ** The workers *)

Ltac unfold_line :=
  unfold ytdlp_line, control_check, parse_merging, parse_destination,
    parse_progress, parse_eta, store_progress, store_speed, store_eta,
    store_filename in *.

(** An iteration of the loop of the media worker writes none of the fixed
    fields, and ends as the control flag says. *)
Lemma ytdlp_line_outcome raw t :
  fixed_fields (ytdlp_line raw t).1 = fixed_fields t
  ∧ match Task.control t with
    | no_control =>
        (ytdlp_line raw t).2 = false
        ∧ Task.status (ytdlp_line raw t).1 = Task.status t
    | c =>
        (ytdlp_line raw t).2 = true
        ∧ Task.status (ytdlp_line raw t).1 = stopped c
    end.
Proof.
  assert (H : ∀ t1 : Task.t,
    fixed_fields t1 = fixed_fields t → Task.status t1 = Task.status t →
    fixed_fields (control_check t1).1 = fixed_fields t
    ∧ match Task.control t with
      | no_control => (control_check t1).2 = false
                      ∧ Task.status (control_check t1).1 = Task.status t
      | c => (control_check t1).2 = true ∧ Task.status (control_check t1).1 = stopped c
      end).
  { intros t1 Hf Hs. assert (Hc : Task.control t1 = Task.control t).
    { unfold fixed_fields in Hf. congruence. }
    unfold control_check. rewrite Hc.
    destruct (Task.control t); simpl; rewrite <- ?Hf; auto. }
  unfold ytdlp_line. apply H.
  - unfold parse_merging, parse_destination, parse_progress, parse_eta,
      store_progress, store_speed, store_eta, store_filename.
    repeat case_match; reflexivity.
  - unfold parse_merging, parse_destination, parse_progress, parse_eta,
      store_progress, store_speed, store_eta, store_filename.
    repeat case_match; reflexivity.
Qed.

Lemma stopped_cases c :
  c ≠ no_control → stopped c = paused ∨ stopped c = canceled.
Proof. destruct c; auto. congruence. Qed.

Lemma ytdlp_stream_outcome lines t :
  fixed_fields (ytdlp_stream lines t).1 = fixed_fields t
  ∧ ((ytdlp_stream lines t).2 = true →
       Task.status (ytdlp_stream lines t).1 = paused
       ∨ Task.status (ytdlp_stream lines t).1 = canceled)
  ∧ ((ytdlp_stream lines t).2 = false →
       Task.status (ytdlp_stream lines t).1 = Task.status t).
Proof.
  revert t. induction lines as [|raw rest IH]; intros t; simpl.
  { split; [done|]. split; [done|]. done. }
  destruct (ytdlp_line_outcome raw t) as [Hf Ho].
  destruct (ytdlp_line raw t) as [t' r]; simpl in *.
  destruct r.
  - simpl. split; [done|]. split; [|done]. intros _.
    destruct (Task.control t) eqn:Hc; destruct Ho as [? Ho]; try done; rewrite Ho; auto.
  - destruct (IH t') as (IH1 & IH2 & IH3).
    assert (Hs : Task.status t' = Task.status t).
    { destruct (Task.control t); destruct Ho; congruence. }
    split; [congruence|]. split; [done|]. intros H. rewrite IH3; done.
Qed.

Lemma glob_fallback_frame matches t :
  fixed_fields (glob_fallback matches t) = fixed_fields t
  ∧ Task.status (glob_fallback matches t) = Task.status t.
Proof. unfold glob_fallback, store_filename. by repeat case_match. Qed.

Lemma ytdlp_finish_frame now1 now2 t :
  fixed_fields (ytdlp_finish now1 now2 t) = fixed_fields t.
Proof. unfold ytdlp_finish. by repeat case_match. Qed.

Lemma run_ytdlp_fixed env t : fixed_fields (run_ytdlp env t) = fixed_fields t.
Proof.
  unfold run_ytdlp. destruct (YtdlpEnv.popen env) as [msg|lines]; [done|].
  destruct (ytdlp_stream_outcome lines (worker_begin t)) as (Hf & _).
  destruct (ytdlp_stream lines (worker_begin t)) as [t1 r]; cbn [fst snd] in *.
  change (fixed_fields (worker_begin t)) with (fixed_fields t) in Hf.
  destruct r; [done|].
  rewrite ytdlp_finish_frame. destruct (glob_fallback_frame (YtdlpEnv.matches env) t1).
  congruence.
Qed.

Lemma image_progress_frame downloaded total elapsed t :
  fixed_fields (image_progress downloaded total elapsed t).1 = fixed_fields t
  ∧ Task.status (image_progress downloaded total elapsed t).1 = Task.status t.
Proof. unfold image_progress. by repeat case_match. Qed.

Lemma image_stream_outcome total body downloaded t :
  fixed_fields (image_stream total body downloaded t).1 = fixed_fields t
  ∧ ((image_stream total body downloaded t).2 = returns →
       Task.status (image_stream total body downloaded t).1 = paused
       ∨ Task.status (image_stream total body downloaded t).1 = canceled).
Proof.
  revert downloaded t. induction body as [|ev rest IH]; intros downloaded t; simpl.
  { by split. }
  destruct ev as [data write_error elapsed|msg]; [|by split].
  destruct data as [|b data]; [apply IH|].
  unfold control_check. destruct (Task.control t) eqn:Hc; simpl; try (split; by auto).
  destruct write_error; [by split|].
  destruct (total =? 0)%Z; [apply IH|].
  match goal with |- context [image_progress ?d total elapsed t] =>
    destruct (image_progress_frame d total elapsed t) as [Hf Hs];
    destruct (image_progress d total elapsed t) as [t2 [msg|]] end;
    cbn [fst snd] in Hf, Hs; simpl.
  - by split.
  - destruct (IH (downloaded + Z.of_nat (S (length data)))%Z t2) as [IH1 IH2].
    split; [congruence|done].
Qed.

Lemma run_image_fixed env t : fixed_fields (run_image env t) = fixed_fields t.
Proof.
  unfold run_image.
  destruct (ImageEnv.response env) as [msg|h]; [done|].
  destruct (image_total h) as [msg|total]; [done|].
  destruct (ImageEnv.open_error env); [done|].
  destruct (image_stream_outcome total (ImageEnv.body env) 0 (worker_begin t)) as [Hf _].
  change (fixed_fields (worker_begin t)) with (fixed_fields t) in Hf.
  destruct (image_stream _ _ _ _) as [t1 [| |msg]]; cbn [fst snd] in *; done.
Qed.

Lemma run_fixed r env t : fixed_fields (run r env t) = fixed_fields t.
Proof.
  destruct r; simpl; unfold start_runner, resume_runner;
    repeat case_match; auto using run_ytdlp_fixed, run_image_fixed.
Qed.

(** X1. No thread writes the identity, the request fields, the title, the
    file path or the control flag of its task, whatever it is answered and
    however its run ends: the control flag is written by the endpoints
    only. *)
Theorem workers_keep_fixed_fields (r : Runner) (env : Env.t) (task : Task.t) :
  Task.id (run r env task) = Task.id task
  ∧ Task.url (run r env task) = Task.url task
  ∧ Task.category (run r env task) = Task.category task
  ∧ Task.fmt (run r env task) = Task.fmt task
  ∧ Task.quality (run r env task) = Task.quality task
  ∧ Task.title (run r env task) = Task.title task
  ∧ Task.filepath (run r env task) = Task.filepath task
  ∧ Task.control (run r env task) = Task.control task.
Proof.
  pose proof (run_fixed r env task) as H. unfold fixed_fields in H.
  injection H. intros. repeat split; assumption.
Qed.

Lemma run_ytdlp_terminal env t :
  Task.status (run_ytdlp env t) ∈ [completed; paused; canceled; error].
Proof.
  unfold run_ytdlp. destruct (YtdlpEnv.popen env) as [msg|lines]; [set_solver|].
  destruct (ytdlp_stream_outcome lines (worker_begin t)) as (_ & Hr & Hs).
  destruct (ytdlp_stream lines (worker_begin t)) as [t1 r]; simpl in *.
  destruct r.
  - destruct Hr as [-> | ->]; set_solver.
  - destruct (glob_fallback_frame (YtdlpEnv.matches env) t1) as [_ Hg].
    unfold ytdlp_finish. rewrite Hg, Hs by done. simpl.
    repeat case_match; simpl; set_solver.
Qed.

Lemma run_image_terminal env t :
  Task.status (run_image env t) ∈ [completed; paused; canceled; error].
Proof.
  unfold run_image.
  destruct (ImageEnv.response env) as [msg|h]; [set_solver|].
  destruct (image_total h) as [msg|total]; [set_solver|].
  destruct (ImageEnv.open_error env); [set_solver|].
  destruct (image_stream_outcome total (ImageEnv.body env) 0 (worker_begin t)) as [_ Hr].
  destruct (image_stream _ _ _ _) as [t1 [| |msg]]; simpl in *; [set_solver| |set_solver].
  destruct Hr as [-> | ->]; set_solver.
Qed.

(** X2. The thread of a start request always leaves its task in one of
    the four final statuses, whatever the category and whatever it is
    answered: never [pending], never [downloading]. *)
Theorem start_runner_ends (env : Env.t) (task : Task.t) :
  Task.status (start_runner env task) ∈ [completed; paused; canceled; error].
Proof.
  unfold start_runner. repeat case_match;
    auto using run_ytdlp_terminal, run_image_terminal.
  simpl. set_solver.
Qed.

(** X3. Whatever the media worker is answered, a run that leaves its task
    [completed] leaves it with progress 1.0, the second reading of the
    clock, a non-empty file name and the public path of that name. *)
Theorem media_completed_has_file (env : YtdlpEnv.t) (task : Task.t) :
  Task.status (run_ytdlp env task) = completed →
  Task.progress (run_ytdlp env task) = 1%float
  ∧ Task.downloaded_at (run_ytdlp env task) = Some (YtdlpEnv.now2 env)
  ∧ ∃ name, name ≠ EmptyString
            ∧ Task.filename (run_ytdlp env task) = Some name
            ∧ Task.download_url (run_ytdlp env task) = Some ("/downloads/" +:+ name).
Proof.
  unfold run_ytdlp. destruct (YtdlpEnv.popen env) as [msg|lines]; [done|].
  destruct (ytdlp_stream_outcome lines (worker_begin task)) as (_ & Hr & Hs).
  destruct (ytdlp_stream lines (worker_begin task)) as [t1 r]; cbn [fst snd] in *.
  destruct r.
  { intros H. destruct Hr as [Hr|Hr]; [done| |]; congruence. }
  destruct (glob_fallback_frame (YtdlpEnv.matches env) t1) as [_ Hg].
  set (t2 := glob_fallback _ t1) in *.
  unfold ytdlp_finish. rewrite Hg, Hs by done. simpl.
  destruct (Task.filename t2) as [name|] eqn:Hf; simpl; [|by rewrite Hf].
  destruct (Py.nonempty name) eqn:Hn; simpl; rewrite ?Hf; simpl; rewrite ?Hn; simpl;
    [|by rewrite Hf].
  intros _. split; [done|]. split; [done|]. exists name.
  split; [by destruct name|]. split; [done|]. unfold public_path. simpl. by rewrite Hf.
Qed.

Lemma media_completed_has_file_witness :
  Task.status (run_ytdlp (ytdlp_env [sample_progress_line] ["/srv/downloads/t1.webm"])
                 (Task.init "t1" sample_request)) = completed
  ∧ Task.progress (run_ytdlp (ytdlp_env [sample_progress_line] ["/srv/downloads/t1.webm"])
                     (Task.init "t1" sample_request)) = 1%float.
Proof.
  assert (H : Task.status
                (run_ytdlp (ytdlp_env [sample_progress_line] ["/srv/downloads/t1.webm"])
                   (Task.init "t1" sample_request)) = completed)
    by (vm_compute; reflexivity).
  split; [exact H|]. exact (proj1 (media_completed_has_file _ _ H)).
Defined.

(** X4. Whatever the image worker is answered, a run that leaves its task
    [completed] leaves it with progress 1.0, the reading of the clock, and
    the file name [<id>.<ext>] with its public path. *)
Theorem image_completed_has_file (env : ImageEnv.t) (task : Task.t) :
  Task.status (run_image env task) = completed →
  Task.progress (run_image env task) = 1%float
  ∧ Task.downloaded_at (run_image env task) = Some (ImageEnv.now env)
  ∧ Task.filename (run_image env task) = Some (image_name task)
  ∧ Task.download_url (run_image env task) = Some ("/downloads/" +:+ image_name task).
Proof.
  unfold run_image.
  destruct (ImageEnv.response env) as [msg|h]; [done|].
  destruct (image_total h) as [msg|total]; [done|].
  destruct (ImageEnv.open_error env); [done|].
  destruct (image_stream_outcome total (ImageEnv.body env) 0 (worker_begin task))
    as [_ Hr].
  destruct (image_stream _ _ _ _) as [t1 [| |msg]]; cbn [fst snd] in *; [done| |done].
  intros H. destruct Hr as [Hr|Hr]; [done| |]; congruence.
Qed.

Lemma image_completed_has_file_witness :
  Task.status (run_image (image_env (Some "4") [sample_chunk])
                 (Task.init "t2" sample_image_request)) = completed
  ∧ Task.filename (run_image (image_env (Some "4") [sample_chunk])
                     (Task.init "t2" sample_image_request)) = Some "t2.png".
Proof.
  assert (H : Task.status (run_image (image_env (Some "4") [sample_chunk])
                             (Task.init "t2" sample_image_request)) = completed)
    by (vm_compute; reflexivity).
  split; [exact H|].
  exact (proj1 (proj2 (proj2 (image_completed_has_file _ _ H)))).
Defined.

Lemma ytdlp_line_downloaded_at raw t :
  Task.downloaded_at (ytdlp_line raw t).1 = Task.downloaded_at t.
Proof. unfold_line. by repeat case_match. Qed.

(** X5. With a pause or a cancel pending, the media worker stops at the
    end of its first iteration: the first line of the output is still
    parsed, the lines after it are never read, the status is the one
    requested and no completion time is written. *)
Theorem control_stops_media (env : YtdlpEnv.t) (raw : string) (rest : list string)
    (task : Task.t) :
  YtdlpEnv.popen env = inr (raw :: rest) →
  Task.control task ≠ no_control →
  run_ytdlp env task = (ytdlp_line raw (worker_begin task)).1
  ∧ Task.status (run_ytdlp env task) = stopped (Task.control task)
  ∧ Task.downloaded_at (run_ytdlp env task) = Task.downloaded_at task.
Proof.
  intros Hp Hc. unfold run_ytdlp. rewrite Hp. simpl.
  destruct (ytdlp_line_outcome raw (worker_begin task)) as [_ Ho].
  pose proof (ytdlp_line_downloaded_at raw (worker_begin task)) as Hd.
  change (Task.control (worker_begin task)) with (Task.control task) in Ho.
  destruct (ytdlp_line raw (worker_begin task)) as [t' r]; cbn [fst snd] in *.
  destruct (Task.control task); [done| |]; destruct Ho as [-> Ho]; simpl; done.
Qed.

Lemma control_stops_media_witness :
  YtdlpEnv.popen (ytdlp_env [half_line; sample_destination_line] []) =
    inr [half_line; sample_destination_line]
  ∧ Task.control (request_pause (Task.init "t1" sample_request)) ≠ no_control
  ∧ Task.status (run_ytdlp (ytdlp_env [half_line; sample_destination_line] [])
                   (request_pause (Task.init "t1" sample_request))) = paused
  ∧ Task.filename (run_ytdlp (ytdlp_env [half_line; sample_destination_line] [])
                     (request_pause (Task.init "t1" sample_request))) = None.
Proof.
  assert (Hc : Task.control (request_pause (Task.init "t1" sample_request)) ≠ no_control)
    by discriminate.
  split; [reflexivity|]. split; [exact Hc|]. split.
  - exact (proj1 (proj2 (control_stops_media
                           (ytdlp_env [half_line; sample_destination_line] [])
                           half_line [sample_destination_line] _ eq_refl Hc))).
  - vm_compute. reflexivity.
Defined.

(** X6. With a pause or a cancel pending, the image worker stops before
    it writes or counts its first non-empty chunk: the task has the status
    requested and the progress 0.0 of the start of the run. *)
Theorem control_stops_image (env : ImageEnv.t) (h : option string) (total : Z)
    (b : Byte.byte) (data : list Byte.byte) (write_error : option string)
    (elapsed : float) (rest : list ImageEnv.event) (task : Task.t) :
  ImageEnv.response env = inr h →
  image_total h = inr total →
  ImageEnv.open_error env = None →
  ImageEnv.body env = ImageEnv.chunk (b :: data) write_error elapsed :: rest →
  Task.control task ≠ no_control →
  run_image env task = Task.set_status (stopped (Task.control task)) (worker_begin task).
Proof.
  intros Hr Ht Ho Hb Hc. unfold run_image. rewrite Hr, Ht, Ho, Hb. simpl.
  unfold control_check. change (Task.control (worker_begin task)) with (Task.control task).
  by destruct (Task.control task).
Qed.

Lemma control_stops_image_witness :
  ImageEnv.response (image_env (Some "4") [sample_chunk]) = inr (Some "4")
  ∧ image_total (Some "4") = inr 4%Z
  ∧ Task.control (request_cancel (Task.init "t2" sample_image_request)) ≠ no_control
  ∧ Task.status (run_image (image_env (Some "4") [sample_chunk])
                   (request_cancel (Task.init "t2" sample_image_request))) = canceled.
Proof.
  assert (Hc : Task.control (request_cancel (Task.init "t2" sample_image_request))
               ≠ no_control) by discriminate.
  split; [reflexivity|]. split; [reflexivity|]. split; [exact Hc|].
  rewrite (control_stops_image (image_env (Some "4") [sample_chunk]) (Some "4") 4
             Byte.x89 [Byte.x50; Byte.x4e; Byte.x47] None 0.5 []
             (request_cancel (Task.init "t2" sample_image_request))
             eq_refl eq_refl eq_refl eq_refl Hc).
  reflexivity.
Defined.

(** X7. The control flag is read only inside the loop over the output.
    When the process prints no line, a pause or a cancel requested before
    the worker started is overwritten: the run ends [completed] or [error],
    as without the request. *)
Theorem control_needs_output (env : YtdlpEnv.t) (task : Task.t) :
  YtdlpEnv.popen env = inr [] →
  run_ytdlp env task =
    Task.set_control (Task.control task)
      (run_ytdlp env (Task.set_control no_control task))
  ∧ (Task.status (run_ytdlp env task) = completed
     ∨ Task.status (run_ytdlp env task) = error).
Proof.
  intros Hp. unfold run_ytdlp. rewrite Hp. simpl. split.
  - unfold ytdlp_finish, glob_fallback, store_filename, worker_begin, public_path.
    destruct task as [? ? ? ? ? ? ? ? fn ? ? ? ? ? ? ?]; simpl.
    destruct fn as [[|c name]|]; simpl; destruct (YtdlpEnv.matches env) as [|m ms];
      simpl; try reflexivity; destruct (Py.basename m); reflexivity.
  - unfold ytdlp_finish, glob_fallback, store_filename, worker_begin. simpl.
    repeat case_match; simpl; auto;
      exfalso; match goal with H : negb (status_in _ _) = false |- _ =>
                 vm_compute in H; discriminate H end.
Qed.

Lemma control_needs_output_witness :
  YtdlpEnv.popen (ytdlp_env [] []) = inr []
  ∧ Task.status (request_pause (Task.init "t1" sample_request)) = paused
  ∧ Task.status (run_ytdlp (ytdlp_env [] []) (request_pause (Task.init "t1" sample_request)))
    = error.
Proof.
  split; [reflexivity|]. split; [reflexivity|].
  destruct (proj2 (control_needs_output (ytdlp_env [] [])
                     (request_pause (Task.init "t1" sample_request)) eq_refl))
    as [H|H]; [|exact H].
  vm_compute in H. discriminate H.
Defined.

(** X8. A run of the media worker that ends in the error of the file not
    found has first gone through the writes of a completion: the task keeps
    progress 1.0 and the first reading of the clock as its completion time,
    with the status [error]. *)
Theorem not_found_keeps_completion_marks (env : YtdlpEnv.t) (lines : list string)
    (task : Task.t) :
  YtdlpEnv.popen env = inr lines →
  Task.control task = no_control →
  Py.truthy (Task.filename (run_ytdlp env task)) = false →
  Task.status (run_ytdlp env task) = error
  ∧ Task.progress (run_ytdlp env task) = 1%float
  ∧ Task.downloaded_at (run_ytdlp env task) = Some (YtdlpEnv.now1 env).
Proof.
  intros Hp Hc. unfold run_ytdlp. rewrite Hp.
  destruct (ytdlp_stream_quiet lines (worker_begin task) Hc) as (Hr & _ & Hs).
  destruct (ytdlp_stream lines (worker_begin task)) as [t1 r]; cbn [fst snd] in *. subst r.
  destruct (glob_fallback_frame (YtdlpEnv.matches env) t1) as [_ Hg].
  set (t2 := glob_fallback _ t1) in *.
  unfold ytdlp_finish. rewrite Hg, Hs. simpl.
  destruct (Py.truthy (Task.filename t2)) eqn:Hf; simpl; rewrite ?Hf; simpl.
  - by rewrite Hf.
  - done.
Qed.

Lemma not_found_keeps_completion_marks_witness :
  YtdlpEnv.popen (ytdlp_env [half_line] []) = inr [half_line]
  ∧ Task.control (Task.init "t1" sample_request) = no_control
  ∧ Task.status (run_ytdlp (ytdlp_env [half_line] []) (Task.init "t1" sample_request))
    = error
  ∧ Task.progress (run_ytdlp (ytdlp_env [half_line] []) (Task.init "t1" sample_request))
    = 1%float.
Proof.
  split; [reflexivity|]. split; [reflexivity|].
  destruct (not_found_keeps_completion_marks (ytdlp_env [half_line] []) [half_line]
              (Task.init "t1" sample_request) eq_refl eq_refl) as (H1 & H2 & _).
  - vm_compute. reflexivity.
  - split; [exact H1|exact H2].
Defined.

Lemma image_stream_unknown_total body downloaded t :
  Task.control t = no_control →
  forallb written body = true →
  image_stream 0 body downloaded t = (t, falls_through).
Proof.
  intros Hc. revert downloaded. induction body as [|ev rest IH]; intros downloaded H;
    [done|].
  simpl in H. apply andb_true_iff in H as [Hw H].
  destruct ev as [data [w|] elapsed|msg]; try discriminate. simpl.
  destruct data as [|b data]; [by apply IH|].
  unfold control_check. rewrite Hc. simpl. by apply IH.
Qed.

(** X9. Without a usable content length (no header, an empty one, or the
    value 0) the image worker writes no progress, speed or ETA during the
    transfer: when every chunk is written and no control is pending, the
    task goes from the start of the run straight to the completion, with
    the speed and the ETA it had before. *)
Theorem image_without_length (env : ImageEnv.t) (h : option string) (task : Task.t) :
  ImageEnv.response env = inr h →
  image_total h = inr 0%Z →
  ImageEnv.open_error env = None →
  forallb written (ImageEnv.body env) = true →
  Task.control task = no_control →
  run_image env task
    = image_complete (image_name task) (ImageEnv.now env) (worker_begin task)
  ∧ Task.status (run_image env task) = completed
  ∧ Task.speed (run_image env task) = Task.speed task
  ∧ Task.eta (run_image env task) = Task.eta task.
Proof.
  intros Hr Ht Ho Hb Hc. unfold run_image. rewrite Hr, Ht, Ho.
  rewrite image_stream_unknown_total by done. done.
Qed.

Lemma image_without_length_witness :
  ImageEnv.response (image_env None [sample_chunk; sample_chunk]) = inr None
  ∧ image_total None = inr 0%Z
  ∧ Task.control (Task.init "t2" sample_image_request) = no_control
  ∧ Task.status (run_image (image_env None [sample_chunk; sample_chunk])
                   (Task.init "t2" sample_image_request)) = completed
  ∧ Task.speed (run_image (image_env None [sample_chunk; sample_chunk])
                  (Task.init "t2" sample_image_request)) = None.
Proof.
  split; [reflexivity|]. split; [reflexivity|]. split; [reflexivity|].
  destruct (image_without_length (image_env None [sample_chunk; sample_chunk]) None
              (Task.init "t2" sample_image_request) eq_refl eq_refl eq_refl eq_refl
              eq_refl) as (_ & H1 & H2 & _).
  split; [exact H1|exact H2].
Defined.

(** ** The sweep and the evictions *)

Lemma cleanup_pass_lookup now (m : Manager) (files : Storage) n :
  cleanup_pass now m files !! n =
  f ← files !! n;
  if existsb (λ kt, sweeps n kt.2) (map_to_list m)
     && (600 <? now - File.mtime f)%float && File.removable f
  then None else Some f.
Proof. apply cleanup_list_lookup. Qed.

Lemma no_sweeper (m : Manager) n :
  (∀ tid t, m !! tid = Some t → sweeps n t = false) →
  existsb (λ kt, sweeps n kt.2) (map_to_list m) = false.
Proof.
  intros H. apply not_true_is_false. intros [[tid t] [Hi Hs]]%existsb_exists.
  apply list_elem_of_In, elem_of_map_to_list in Hi. simpl in Hs.
  rewrite (H tid t Hi) in Hs. discriminate.
Qed.

(** X10. A pass of the sweep only removes: what is in the directory after
    it was there before, unchanged. And it leaves alone every file that no
    task in status [completed] or [canceled] has as its file name, whatever
    its age: the file of a task that is pending, downloading, paused or in
    error is never removed on behalf of that task. *)
Theorem sweep_only_removes_finished (now : float) (m : Manager) (files : Storage) :
  cleanup_pass now m files ⊆ files
  ∧ ∀ name,
      (∀ tid t, m !! tid = Some t → Task.filename t = Some name →
                Task.status t ≠ completed ∧ Task.status t ≠ canceled) →
      cleanup_pass now m files !! name = files !! name.
Proof.
  split.
  - apply map_subseteq_spec. intros n f. rewrite cleanup_pass_lookup.
    destruct (files !! n) as [f'|]; simpl; [|done]. case_match; [done|]. done.
  - intros name H. rewrite cleanup_pass_lookup, no_sweeper.
    + by destruct (files !! name).
    + intros tid t Ht. unfold sweeps.
      destruct (bool_decide (Task.filename t = Some name)) eqn:Hn;
        [|by rewrite andb_false_r].
      apply bool_decide_eq_true_1 in Hn. destruct (H tid t Ht Hn) as [H1 H2].
      unfold status_in. rewrite bool_decide_eq_false_2; [done|].
      rewrite !elem_of_cons, elem_of_nil. tauto.
Qed.

(** X11. A second pass at the same clock changes nothing: what a pass
    leaves is what it would leave again. *)
Theorem sweep_idempotent (now : float) (m : Manager) (files : Storage) :
  cleanup_pass now m (cleanup_pass now m files) = cleanup_pass now m files.
Proof.
  apply map_eq. intros n. rewrite !cleanup_pass_lookup.
  destruct (files !! n) as [f|]; simpl; [|done].
  destruct (_ && _ && _) eqn:H; simpl; [done|]. by rewrite H.
Qed.

(** X12. An eviction forgets the task and keeps its file: after
    [clear_completed], a file that only completed tasks had as their file
    name is never removed by the sweep, however old; and so after
    [clear_canceled] for a file that only canceled tasks had. *)
Theorem eviction_orphans_files (now : float) (m : Manager) (files : Storage)
    (name : string) :
  ((∀ tid t, m !! tid = Some t → Task.filename t = Some name →
             Task.status t = completed) →
   cleanup_pass now (clear_completed m) files !! name = files !! name)
  ∧ ((∀ tid t, m !! tid = Some t → Task.filename t = Some name →
               Task.status t = canceled) →
     cleanup_pass now (clear_canceled m) files !! name = files !! name).
Proof.
  split; intros H; (rewrite cleanup_pass_lookup, no_sweeper;
                    [by destruct (files !! name)|]);
    intros tid t [Ht Hs]%map_lookup_filter_Some; simpl in Hs; unfold sweeps;
    (destruct (bool_decide (Task.filename t = Some name)) eqn:Hn;
     [|by rewrite andb_false_r]);
    apply bool_decide_eq_true_1 in Hn; by specialize (H tid t Ht Hn).
Qed.

Lemma eviction_orphans_files_witness :
  cleanup_pass 1700000601 {[ "t1" := completed_task ]} (one_file 1700000000)
    !! "My Video.mp4" = None
  ∧ cleanup_pass 1700000601 (clear_completed {[ "t1" := completed_task ]})
      (one_file 1700000000) !! "My Video.mp4" = Some (File.mk 1700000000 true).
Proof.
  split; [vm_compute; reflexivity|].
  rewrite (proj1 (eviction_orphans_files 1700000601 {[ "t1" := completed_task ]}
                    (one_file 1700000000) "My Video.mp4")).
  - reflexivity.
  - intros tid t [<- <-]%lookup_singleton_Some _. reflexivity.
Defined.

(** ** The registry *)

(** X13. An eviction removes the tasks of its status and nothing else:
    every other task stays under its id, unchanged. Evicting twice is
    evicting once, and the two evictions can be done in either order. *)
Theorem evictions (m : Manager) :
  (∀ tid t, clear_completed m !! tid = Some t
            ↔ m !! tid = Some t ∧ Task.status t ≠ completed)
  ∧ (∀ tid t, clear_canceled m !! tid = Some t
              ↔ m !! tid = Some t ∧ Task.status t ≠ canceled)
  ∧ clear_completed (clear_completed m) = clear_completed m
  ∧ clear_canceled (clear_canceled m) = clear_canceled m
  ∧ clear_completed (clear_canceled m) = clear_canceled (clear_completed m).
Proof.
  assert (H1 : ∀ (m : Manager) tid t, clear_completed m !! tid = Some t
            ↔ m !! tid = Some t ∧ Task.status t ≠ completed).
  { intros. unfold clear_completed. by rewrite map_lookup_filter_Some. }
  assert (H2 : ∀ (m : Manager) tid t, clear_canceled m !! tid = Some t
            ↔ m !! tid = Some t ∧ Task.status t ≠ canceled).
  { intros. unfold clear_canceled. by rewrite map_lookup_filter_Some. }
  split; [apply H1|]. split; [apply H2|].
  repeat split; apply map_eq; intros tid; apply option_eq; intros t;
    rewrite ?H1, ?H2, ?H1, ?H2; tauto.
Qed.

(** No block writes the fields of the request or the path. *)
Lemma step_request_fields t t' :
  step t t' → request_fields t' = request_fields t.
Proof.
  destruct 1; unfold request_fields, store_title, reject_category, worker_begin,
    store_progress, store_speed, store_eta, store_filename, control_check,
    ytdlp_finish, worker_error, image_progress, image_complete, request_pause,
    request_cancel, request_resume;
    repeat case_match; reflexivity.
Qed.

Lemma interleaving_request_fields later t :
  interleaving later → request_fields (later t) = request_fields t.
Proof.
  intros H. specialize (H t). revert H. generalize (later t). intros t'.
  revert t'. apply rtc_ind_r; [done|].
  intros t1 t2 _ Hs IH. rewrite <- IH. by apply step_request_fields.
Qed.

(** X14. Pause, cancel and resume on an unknown id raise the error 404 with
    the message [Task not found], change nothing and start no thread. On a
    known id they write the task by their block and leave every other task
    as it is; only resume starts a thread. Whatever the threads do between
    the block and the reading of the record, the answer is a record of the
    task asked for: its id, url, format, quality and path are the stored
    ones. With no thread writing in between, the answer is the record that
    a status request gives right after. *)
Theorem control_endpoints (tid : string) (later : Task.t → Task.t) (m : Manager) :
  interleaving later →
  Forall (λ e : (string → (Task.t → Task.t) → Manager
                   → Manager * Response * option (Runner * string))
                * (Task.t → Task.t) * option (Runner * string),
    (m !! tid = None →
       e.1.1 tid later m
       = (m, raised {| status_code := 404; detail := "Task not found" |}, None))
    ∧ (∀ tid', tid' ≠ tid → (e.1.1 tid later m).1.1 !! tid' = m !! tid')
    ∧ (e.1.1 tid id m).1.2 = get_status tid (e.1.1 tid id m).1.1
    ∧ ∀ task, m !! tid = Some task →
        (e.1.1 tid later m).1.1 !! tid = Some (e.1.2 task)
        ∧ (e.1.1 tid later m).2 = e.2
        ∧ ∃ s, (e.1.1 tid later m).1.2 = returned s
               ∧ TaskStatus.id s = Task.id task
               ∧ TaskStatus.url s = Task.url task
               ∧ TaskStatus.fmt s = Task.fmt task
               ∧ TaskStatus.quality s = Task.quality task
               ∧ TaskStatus.filepath s = Task.filepath task)
    [(pause_task, request_pause, None);
     (cancel_task, request_cancel, None);
     (resume_task, request_resume, Some (runner_of_resume, tid))].
Proof.
  intros Hl.
  assert (Hr : ∀ block : Task.t → Task.t,
            (∀ t, request_fields (block t) = request_fields t) →
            ∀ task, request_fields (later (block task)) = request_fields task).
  { intros block Hb task. by rewrite interleaving_request_fields, Hb. }
  repeat apply Forall_cons_2; [| | |apply Forall_nil_2];
    unfold pause_task, cancel_task, resume_task, get_status; simpl;
    (destruct (m !! tid) as [t|] eqn:Ht; simpl;
     [rewrite lookup_insert_eq; split; [done|];
      split; [intros tid' Hne; by rewrite lookup_insert_ne|];
      split; [done|];
      intros task [= <-]; split; [done|]; split; [done|];
      eexists; split; [reflexivity|]; simpl
     |rewrite Ht; done]).
  - specialize (Hr request_pause (λ _, eq_refl) t).
    unfold request_fields in Hr. by injection Hr.
  - specialize (Hr request_cancel (λ _, eq_refl) t).
    unfold request_fields in Hr. by injection Hr.
  - specialize (Hr request_resume (λ _, eq_refl) t).
    unfold request_fields in Hr. by injection Hr.
Qed.

Lemma control_endpoints_witness :
  interleaving (run runner_of_resume (Env.mk (ytdlp_env [half_line] []) no_image))
  ∧ twenty_active !! "C" = Some (Task.init "C" sample_request)
  ∧ ∃ s, (cancel_task "C" (run runner_of_resume
                              (Env.mk (ytdlp_env [half_line] []) no_image))
            twenty_active).1.2 = returned s
         ∧ TaskStatus.id s = "C"
         ∧ TaskStatus.url s = "https://example.org/v".
Proof.
  assert (Hl : interleaving
                 (run runner_of_resume (Env.mk (ytdlp_env [half_line] []) no_image)))
    by (intros t; apply run_steps).
  assert (Ht : twenty_active !! "C" = Some (Task.init "C" sample_request))
    by (vm_compute; reflexivity).
  split; [exact Hl|]. split; [exact Ht|].
  pose proof (control_endpoints "C" _ twenty_active Hl) as H.
  apply Forall_cons_1 in H as [_ H]. apply Forall_cons_1 in H as [H _].
  destruct H as (_ & _ & _ & H).
  destruct (H _ Ht) as (_ & _ & s & Hs & Hi & Hu & _).
  exists s. split; [exact Hs|]. split; [exact Hi|exact Hu].
Defined.

(** The thread of a start request leaves a final status. *)
Lemma start_runner_terminal env t :
  Task.status (start_runner env t) ∈ [completed; paused; canceled; error].
Proof.
  unfold start_runner. repeat case_match;
    auto using run_ytdlp_terminal, run_image_terminal.
  simpl. rewrite !elem_of_cons. tauto.
Qed.

(** X15. Below the cap, a start request with a fresh id adds one task and
    touches no other, and starts a thread on it: the task is stored
    [pending] with progress 0.0, no file name, the title fetched if there
    is one. The record returned is read after the thread is started.
    Whatever the thread has done by then, it is a record of the new task,
    with the id, url, format and quality of the request. It is the
    [pending] record, the one a status request gives, when the thread has
    not written yet; when the thread has already run to its end it carries
    a final status, and for a category that is none of [video], [audio],
    [image] the status [error] with the message [Unsupported category]. *)
Theorem start_creates_task (req : StartRequest.t) (tid : string)
    (fetched : option string) (later : Task.t → Task.t) (m : Manager) :
  length (active_tasks m) < MAX_TASKS →
  m !! tid = None →
  interleaving later →
  ∃ task s,
    start_download req tid fetched later m
      = (<[tid := task]> m, returned s, Some (runner_of_start, tid))
    ∧ s = Task.to_status (later task)
    ∧ size (<[tid := task]> m) = S (size m)
    ∧ (∀ tid', tid' ≠ tid → (<[tid := task]> m) !! tid' = m !! tid')
    ∧ (Task.id task = tid
       ∧ Task.url task = StartRequest.url req
       ∧ Task.status task = pending
       ∧ Task.progress task = 0%float
       ∧ Task.filename task = None
       ∧ Task.title task = (if Py.truthy fetched then fetched else None))
    ∧ (TaskStatus.id s = tid
       ∧ TaskStatus.url s = StartRequest.url req
       ∧ TaskStatus.fmt s = StartRequest.fmt req
       ∧ TaskStatus.quality s = StartRequest.quality req)
    ∧ (later task = task →
         TaskStatus.status s = pending
         ∧ get_status tid (<[tid := task]> m) = returned s)
    ∧ (∀ env, later task = start_runner env task →
         TaskStatus.status s ∈ [completed; paused; canceled; error]
         ∧ (StartRequest.category req ∉ ["video"; "audio"; "image"] →
              TaskStatus.status s = error
              ∧ TaskStatus.message s = Some "Unsupported category")).
Proof.
  intros Hc Hf Hl. unfold start_download.
  destruct (Nat.leb MAX_TASKS (length (active_tasks m))) eqn:Hle.
  { apply Nat.leb_le in Hle. lia. }
  set (task := store_title fetched (Task.init tid req)).
  assert (Hq : request_fields task = request_fields (Task.init tid req)).
  { unfold task, store_title. by destruct (Py.truthy fetched). }
  pose proof (interleaving_request_fields later task Hl) as Hr.
  rewrite Hq in Hr. unfold request_fields in Hr. simpl in Hr.
  exists task, (Task.to_status (later task)).
  split; [reflexivity|]. split; [reflexivity|].
  split; [by apply map_size_insert_None|].
  split; [intros tid' Hne; by rewrite lookup_insert_ne|].
  split; [unfold task, store_title; by destruct (Py.truthy fetched)|].
  split; [simpl; by injection Hr|].
  split.
  - intros ->. split.
    + unfold task, store_title. by destruct (Py.truthy fetched).
    + unfold get_status. by rewrite lookup_insert_eq.
  - intros env ->. simpl. split; [apply start_runner_terminal|].
    intros Hn.
    assert (Hcat : Task.category task = StartRequest.category req).
    { unfold task, store_title. by destruct (Py.truthy fetched). }
    rewrite <- Hcat in Hn. destruct (not_supported _ Hn) as [H1 H2].
    unfold start_runner. by rewrite H1, H2.
Qed.

Lemma start_creates_task_witness :
  length (active_tasks (∅ : Manager)) < MAX_TASKS
  ∧ (∅ : Manager) !! "t1" = None
  ∧ interleaving (start_runner (Env.mk (ytdlp_env [] []) no_image))
  ∧ ∃ task s,
      start_download (StartRequest.mk "https://example.org/d" "document" "pdf" EmptyString)
        "t1" None (start_runner (Env.mk (ytdlp_env [] []) no_image)) ∅
        = (<["t1" := task]> ∅, returned s, Some (runner_of_start, "t1"))
      ∧ Task.status task = pending
      ∧ TaskStatus.id s = "t1"
      ∧ TaskStatus.status s = error
      ∧ TaskStatus.message s = Some "Unsupported category".
Proof.
  assert (H1 : length (active_tasks (∅ : Manager)) < MAX_TASKS)
    by (vm_compute; lia).
  assert (H2 : interleaving (start_runner (Env.mk (ytdlp_env [] []) no_image)))
    by (intros t; apply (run_steps runner_of_start)).
  split; [exact H1|]. split; [reflexivity|]. split; [exact H2|].
  destruct (start_creates_task
              (StartRequest.mk "https://example.org/d" "document" "pdf" EmptyString)
              "t1" None (start_runner (Env.mk (ytdlp_env [] []) no_image)) ∅
              H1 eq_refl H2)
    as (task & s & H & Hs & _ & _ & (_ & _ & Hp & _) & (Hi & _) & _ & He).
  exists task, s. split; [exact H|]. split; [exact Hp|]. split; [exact Hi|].
  subst s. apply (He (Env.mk (ytdlp_env [] []) no_image)); [reflexivity|].
  simpl. rewrite !not_elem_of_cons. repeat split; try discriminate.
  apply not_elem_of_nil.
Defined.

Lemma length_filter_perm {A} (f : A → bool) (l l' : list A) :
  l ≡ₚ l' → length (List.filter f l) = length (List.filter f l').
Proof.
  induction 1 as [|x l l' _ IH|x y l|l1 l2 l3 _ IH1 _ IH2]; simpl.
  - done.
  - destruct (f x); simpl; by rewrite IH.
  - by destruct (f x), (f y).
  - by rewrite IH1.
Qed.

(** The number of active tasks when one task of the registry is replaced. *)
Lemma active_tasks_replace (m : Manager) tid t t' :
  m !! tid = Some t →
  length (active_tasks (<[tid := t']> m)) + (if active t then 1 else 0)
  = length (active_tasks m) + (if active t' then 1 else 0).
Proof.
  intros Ht. unfold active_tasks.
  rewrite (length_filter_perm active (map snd (map_to_list m))
             (map snd ((tid, t) :: map_to_list (delete tid m)))).
  2: { apply Permutation_map. symmetry. by apply map_to_list_delete. }
  rewrite <- (insert_delete_eq m).
  rewrite (length_filter_perm active (map snd (map_to_list (<[tid:=t']> (delete tid m))))
             (map snd ((tid, t') :: map_to_list (delete tid m)))).
  2: { apply Permutation_map, map_to_list_insert, lookup_delete_eq. }
  simpl. destruct (active t), (active t'); simpl; lia.
Qed.

(** X16. Only [start_download] looks at the cap. Resuming a task that is
    not active makes one more active task, however many there are, so the
    number of active tasks can go above [MAX_TASKS]; pausing or canceling
    an active task makes one fewer. *)
Theorem resume_ignores_cap (tid : string) (task : Task.t)
    (later : Task.t → Task.t) (m : Manager) :
  m !! tid = Some task →
  (active task = false →
     length (active_tasks (resume_task tid later m).1.1) = S (length (active_tasks m)))
  ∧ (active task = true →
       S (length (active_tasks (pause_task tid later m).1.1)) = length (active_tasks m)
       ∧ S (length (active_tasks (cancel_task tid later m).1.1))
         = length (active_tasks m)).
Proof.
  intros Ht. unfold resume_task, pause_task, cancel_task. rewrite Ht. simpl.
  pose proof (active_tasks_replace m tid task (request_resume task) Ht) as H1.
  pose proof (active_tasks_replace m tid task (request_pause task) Ht) as H2.
  pose proof (active_tasks_replace m tid task (request_cancel task) Ht) as H3.
  change (active (request_resume task)) with true in H1.
  change (active (request_pause task)) with false in H2.
  change (active (request_cancel task)) with false in H3.
  split; intros Ha; rewrite Ha in *; lia.
Qed.

Lemma resume_ignores_cap_witness :
  twenty_and_paused !! "Z" = Some (request_pause (Task.init "Z" sample_request))
  ∧ length (active_tasks twenty_and_paused) = MAX_TASKS
  ∧ length (active_tasks (resume_task "Z" id twenty_and_paused).1.1) = S MAX_TASKS.
Proof.
  assert (H : twenty_and_paused !! "Z"
              = Some (request_pause (Task.init "Z" sample_request)))
    by (vm_compute; reflexivity).
  assert (Hn : length (active_tasks twenty_and_paused) = MAX_TASKS)
    by (vm_compute; reflexivity).
  split; [exact H|]. split; [exact Hn|].
  rewrite <- Hn.
  exact (proj1 (resume_ignores_cap "Z" _ id twenty_and_paused H) eq_refl).
Defined.

Lemma perform_keeps_ids op (m : Manager) :
  (∀ tid t, m !! tid = Some t → Task.id t = tid) →
  ∀ tid t, perform op m !! tid = Some t → Task.id t = tid.
Proof.
  intros Hm.
  assert (Hi : ∀ k (t' : Task.t), Task.id t' = k →
            ∀ tid t, <[k := t']> m !! tid = Some t → Task.id t = tid).
  { intros k t' Hk tid t. rewrite lookup_insert. case_decide; [|apply Hm].
    intros [= <-]. congruence. }
  destruct op as [req k fetched|k|k|k|r env k| |]; simpl.
  - unfold start_download. case_match; simpl; [done|].
    apply Hi. unfold store_title. by case_match.
  - unfold pause_task. destruct (m !! k) eqn:E; simpl; [|done].
    apply Hi. simpl. by apply Hm.
  - unfold cancel_task. destruct (m !! k) eqn:E; simpl; [|done].
    apply Hi. simpl. by apply Hm.
  - unfold resume_task. destruct (m !! k) eqn:E; simpl; [|done].
    apply Hi. simpl. by apply Hm.
  - unfold run_thread. destruct (m !! k) as [t0|] eqn:E; [|done].
    apply Hi. pose proof (run_fixed r env t0) as Hf.
    unfold fixed_fields in Hf. injection Hf as Hid _. rewrite Hid. by apply Hm.
  - intros tid t [H _]%map_lookup_filter_Some. by apply Hm.
  - intros tid t [H _]%map_lookup_filter_Some. by apply Hm.
Qed.

(** X17. Whatever endpoints are called and threads run, in whatever order,
    every task of the registry is stored under its own id: a status request
    for an id is answered with a record of that id. *)
Theorem registry_keys_are_ids (ops : list Operation) (tid : string) :
  (∀ t, foldl (λ m op, perform op m) ∅ ops !! tid = Some t → Task.id t = tid)
  ∧ (∀ s, get_status tid (foldl (λ m op, perform op m) ∅ ops) = returned s →
          TaskStatus.id s = tid).
Proof.
  assert (H : ∀ tid t, foldl (λ m op, perform op m) ∅ ops !! tid = Some t →
                       Task.id t = tid).
  { induction ops as [|op ops IH] using rev_ind; simpl.
    - intros k t. by rewrite lookup_empty.
    - rewrite foldl_app. simpl. by apply perform_keeps_ids. }
  split; [apply H|].
  intros s. unfold get_status.
  destruct (foldl _ _ _ !! tid) as [t|] eqn:Ht; [|done].
  intros [= <-]. simpl. by apply H.
Qed.

(** ** The command line and the title *)

Lemma append_assoc (a b c : string) : (a +:+ b) +:+ c = a +:+ b +:+ c.
Proof.
  induction a as [|x a IH]; [done|].
  change (String x ((a +:+ b) +:+ c) = String x (a +:+ b +:+ c)). by rewrite IH.
Qed.

Lemma has_slash_cons c s :
  Py.has_slash (String c s) = Ascii.eqb "/" c || Py.has_slash s.
Proof.
  unfold Py.has_slash, Py.contains. cbn [Py.partition Py.after_prefix].
  destruct (Ascii.eqb "/" c); [done|]. cbn [orb].
  by destruct (Py.partition "/" s) as [[]|].
Qed.

Lemma has_slash_app a b :
  Py.has_slash (a +:+ b) = Py.has_slash a || Py.has_slash b.
Proof.
  induction a as [|c a IH]; [done|].
  change (String c a +:+ b) with (String c (a +:+ b)).
  by rewrite !has_slash_cons, IH, orb_assoc.
Qed.

Lemma basename_no_slash s : Py.has_slash s = false → Py.basename s = s.
Proof. intros H. destruct s; [done|]. cbn [Py.basename]. by rewrite H. Qed.

Lemma basename_after_slash a b :
  Py.has_slash b = false → Py.basename (a +:+ "/" +:+ b) = b.
Proof.
  intros Hb. induction a as [|c a IH].
  - change (Py.basename (String "/" b) = b). cbn [Py.basename].
    rewrite has_slash_cons. cbn [Ascii.eqb Bool.eqb andb orb]. change (Ascii.eqb "/" "/") with true.
    cbn [orb]. by apply basename_no_slash.
  - change (String c a +:+ "/" +:+ b) with (String c (a +:+ "/" +:+ b)).
    cbn [Py.basename]. rewrite has_slash_cons, has_slash_app.
    change (Py.has_slash ("/" +:+ b)) with (Py.has_slash (String "/" b)).
    rewrite (has_slash_cons "/" b). change (Ascii.eqb "/" "/") with true.
    cbn [orb]. by rewrite !orb_true_r.
Qed.

Lemma endswith_slash a :
  PyStr.endswith "/" a = true → ∃ a0, a = a0 +:+ "/".
Proof.
  induction a as [|c a IH]; [done|]. cbn [PyStr.endswith].
  destruct (String.eqb "/" (String c a)) eqn:E; cbn [orb].
  - apply String.eqb_eq in E as <-. by exists EmptyString.
  - intros [a0 ->]%IH. by exists (String c a0).
Qed.

Lemma sub_chars_spec class repl s :
  String.length (PyStr.sub_chars class repl s) = String.length s
  ∧ (class repl = false →
       forallb (λ c, negb (class c)) (list_ascii_of_string (PyStr.sub_chars class repl s))
       = true)
  ∧ (forallb (λ c, negb (class c)) (list_ascii_of_string s) = true →
       PyStr.sub_chars class repl s = s).
Proof.
  induction s as [|c s (IH1 & IH2 & IH3)]; simpl; [done|].
  split; [by rewrite IH1|]. split.
  - intros Hr. rewrite IH2 by done. destruct (class c) eqn:Hc; simpl; by rewrite ?Hr, ?Hc.
  - intros [Hc Hs]%andb_true_iff. rewrite IH3 by done.
    by destruct (class c).
Qed.

Lemma no_forbidden_no_slash s :
  forallb (λ c, negb (forbidden c)) (list_ascii_of_string s) = true →
  Py.has_slash s = false.
Proof.
  induction s as [|c s IH]; simpl; [done|].
  intros [Hc Hs]%andb_true_iff. rewrite has_slash_cons, IH by done.
  destruct (Ascii.eqb "/" c) eqn:E; [|done].
  apply Ascii.eqb_eq in E as <-. discriminate Hc.
Qed.

Lemma safe_title_sanitized_aux (task : Task.t) (title : string) :
  Task.title task = Some title →
  title ≠ EmptyString →
  forallb (λ c, negb (forbidden c)) (list_ascii_of_string (safe_title task)) = true.
Proof.
  intros Ht Hn. unfold safe_title. rewrite Ht.
  destruct title as [|c title]; [done|]. cbn [Py.nonempty].
  by apply (sub_chars_spec forbidden "_" (String c title)).
Qed.

(** X18. With a title, the base name of the output file is the title with
    each of the nine characters of the class replaced by an underscore: it
    has the length of the title, none of these characters, and is the title
    itself when the title has none. *)
Theorem safe_title_is_sanitized (task : Task.t) (title : string) :
  Task.title task = Some title →
  title ≠ EmptyString →
  String.length (safe_title task) = String.length title
  ∧ forallb (λ c, negb (forbidden c)) (list_ascii_of_string (safe_title task)) = true
  ∧ (forallb (λ c, negb (forbidden c)) (list_ascii_of_string title) = true →
       safe_title task = title).
Proof.
  intros Ht Hn. unfold safe_title. rewrite Ht.
  destruct title as [|c title]; [done|]. cbn [Py.nonempty].
  destruct (sub_chars_spec forbidden "_" (String c title)) as (H1 & H2 & H3).
  split; [done|]. split; [by apply H2|done].
Qed.

Lemma safe_title_is_sanitized_witness :
  Task.title titled_task = Some "a/b: c?"
  ∧ "a/b: c?" ≠ EmptyString
  ∧ safe_title titled_task = "a_b_ c_"
  ∧ String.length (safe_title titled_task) = String.length "a/b: c?".
Proof.
  assert (Hn : "a/b: c?" ≠ EmptyString) by discriminate.
  split; [reflexivity|]. split; [exact Hn|]. split; [reflexivity|].
  exact (proj1 (safe_title_is_sanitized titled_task "a/b: c?" eq_refl Hn)).
Defined.

(** X19. With a title, the output template names a file directly in the
    download directory, whatever the title: its base name is the sanitized
    title followed by [.%(ext)s], so no title leads out of the directory. *)
Theorem outtmpl_stays_in_directory (h : Host.t) (task : Task.t) :
  Py.truthy (Task.title task) = true →
  Py.basename (outtmpl h task) = safe_title task +:+ ".%(ext)s"
  ∧ (outtmpl h task = Host.download_dir h +:+ safe_title task +:+ ".%(ext)s"
     ∨ outtmpl h task = Host.download_dir h +:+ "/" +:+ safe_title task +:+ ".%(ext)s").
Proof.
  intros Ht. destruct (Task.title task) as [title|] eqn:E; [|done]. simpl in Ht.
  assert (Hn : title ≠ EmptyString) by (by destruct title).
  pose proof (safe_title_sanitized_aux task title E Hn) as Hs.
  assert (Hb : Py.has_slash (safe_title task +:+ ".%(ext)s") = false).
  { rewrite has_slash_app, (no_forbidden_no_slash _ Hs). reflexivity. }
  unfold outtmpl, PyStr.path_join.
  set (b := safe_title task +:+ ".%(ext)s") in *.
  assert (Hp : Py.startswith "/" b = false).
  { clearbody b. destruct b as [|c b']; [done|]. rewrite has_slash_cons in Hb.
    unfold Py.startswith. cbn [Py.after_prefix]. by destruct (Ascii.eqb "/" c). }
  rewrite Hp.
  destruct (Host.download_dir h) as [|c d] eqn:Hd; cbn [Py.nonempty negb orb].
  - split; [by apply basename_no_slash|by left].
  - destruct (PyStr.endswith "/" (String c d)) eqn:He.
    + split; [|by left]. apply endswith_slash in He as [a0 ->].
      rewrite append_assoc. by apply basename_after_slash.
    + split; [|by right]. by apply (basename_after_slash (String c d)).
Qed.

Lemma outtmpl_stays_in_directory_witness :
  Py.truthy (Task.title titled_task) = true
  ∧ outtmpl sample_host titled_task = "/srv/app/downloads/a_b_ c_.%(ext)s"
  ∧ Py.basename (outtmpl sample_host titled_task) = safe_title titled_task +:+ ".%(ext)s".
Proof.
  split; [reflexivity|]. split; [reflexivity|].
  exact (proj1 (outtmpl_stays_in_directory sample_host titled_task eq_refl)).
Defined.

Lemma in_list_elem s l : in_list s l = true → s ∈ l.
Proof.
  unfold in_list. intros (x & Hx & E)%existsb_exists.
  apply String.eqb_eq in E as ->. by apply list_elem_of_In.
Qed.

Lemma string_of_uint_numeral d : numeral (NilEmpty.string_of_uint d) = true.
Proof. unfold numeral. induction d; simpl; auto. Qed.

Lemma str_of_int_numeral n : numeral (PyStr.str_of_int n) = true.
Proof.
  unfold PyStr.str_of_int, NilZero.string_of_int.
  destruct (Z.to_int n) as [d|d]; unfold NilZero.string_of_uint.
  - destruct d; try apply string_of_uint_numeral; reflexivity.
  - change (numeral (String "-" (match d with
                                 | Decimal.Nil => "0"
                                 | _ => NilEmpty.string_of_uint d end)) = true).
    unfold numeral. simpl.
    destruct d; try apply (string_of_uint_numeral); reflexivity.
Qed.

(** X20. What the request says of the format and of the quality reaches the
    command line only through a whitelist or as a number. The arguments of
    the format selection are among twelve literals, whatever [fmt] is, with
    [-x] there exactly for the category [audio]; a resolution hint is sent
    only for the category [video], as [-S] and [res:] followed by the
    decimal numeral of the integer read from the quality. *)
Theorem options_are_whitelisted (task : Task.t) :
  (∀ a, a ∈ format_args task → a ∈ format_literals)
  ∧ ("-x" ∈ format_args task ↔ Task.category task = "audio")
  ∧ (∀ a, a ∈ quality_args task →
       Task.category task = "video"
       ∧ (a = "-S"
          ∨ ∃ n, Py.int_of_str (PyStr.drop_last (Task.quality task)) = Some n
                 ∧ a = "res:" +:+ PyStr.str_of_int n
                 ∧ numeral (PyStr.str_of_int n) = true)).
Proof.
  split; [|split].
  - intros a. unfold format_args, format_literals.
    destruct (String.eqb (Task.category task) "audio");
      destruct (in_list _ _) eqn:Hw; simpl;
      try (apply in_list_elem in Hw);
      rewrite ?app_nil_r, !elem_of_cons, ?elem_of_nil in *;
      intuition (subst; auto 20).
  - unfold format_args.
    destruct (String.eqb (Task.category task) "audio") eqn:Hc.
    + apply String.eqb_eq in Hc. split; [done|]. intros _.
      rewrite elem_of_app, !elem_of_cons. auto.
    + apply String.eqb_neq in Hc. split; [|done].
      destruct (in_list _ _) eqn:Hw; simpl.
      * apply in_list_elem in Hw.
        rewrite !elem_of_cons, ?elem_of_nil in *.
        intuition (try discriminate; congruence).
      * rewrite !elem_of_cons, ?elem_of_nil. intuition (try discriminate; congruence).
  - intros a. unfold quality_args.
    destruct (String.eqb (Task.category task) "video") eqn:Hc; simpl;
      [|by rewrite elem_of_nil].
    apply String.eqb_eq in Hc.
    destruct (PyStr.endswith "p" _); [|by rewrite elem_of_nil].
    destruct (Py.int_of_str _) as [n|]; [|by rewrite elem_of_nil].
    rewrite !elem_of_cons, elem_of_nil. intros [->|[->|[]]]; split; auto.
    right. exists n. auto using str_of_int_numeral.
Qed.

Lemma lstrip_by_idem p s : Py.lstrip_by p (Py.lstrip_by p s) = Py.lstrip_by p s.
Proof.
  induction s as [|c s IH]; [done|]. simpl.
  destruct (p c) eqn:Hc; [done|]. simpl. by rewrite Hc.
Qed.

Lemma rstrip_by_idem p s : Py.rstrip_by p (Py.rstrip_by p s) = Py.rstrip_by p s.
Proof.
  induction s as [|c s IH]; [done|]. simpl.
  destruct (Py.rstrip_by p s) as [|d r] eqn:Hr.
  - destruct (p c) eqn:Hc; [done|]. simpl. by rewrite Hc.
  - simpl in *. by rewrite IH.
Qed.

(** Stripping the right end keeps a first character that is not stripped. *)
Lemma lstrip_rstrip p s :
  Py.lstrip_by p (Py.rstrip_by p (Py.lstrip_by p s))
  = Py.rstrip_by p (Py.lstrip_by p s).
Proof.
  assert (H : ∀ x, Py.lstrip_by p x = x →
                   Py.lstrip_by p (Py.rstrip_by p x) = Py.rstrip_by p x).
  { intros [|c x]; [done|]. simpl.
    destruct (p c) eqn:Hc.
    - intros Hx. exfalso.
      assert (Hl : ∀ y, String.length (Py.lstrip_by p y) ≤ String.length y).
      { induction y as [|d y IHy]; simpl; [done|]. destruct (p d); simpl; lia. }
      specialize (Hl x). rewrite Hx in Hl. simpl in Hl. lia.
    - intros _. destruct (Py.rstrip_by p x); simpl; by rewrite Hc. }
  apply H, lstrip_by_idem.
Qed.

Lemma strip_idem s : Py.strip (Py.strip s) = Py.strip s.
Proof. unfold Py.strip. by rewrite lstrip_rstrip, rstrip_by_idem. Qed.

(** X21. The title that [get_video_title] returns is never empty and has no
    blank at either end; it returns none when no command is found, when the
    probe raises or when it exits with another code than 0. A start request
    then stores as title exactly what [get_video_title] returned. *)
Theorem fetched_title_is_stripped (h : Host.t) (run : list string → option (Z * string))
    (req : StartRequest.t) (tid : string) :
  (∀ title, get_video_title h run (StartRequest.url req) = Some title →
            title ≠ EmptyString ∧ Py.strip title = title
            ∧ ∃ cmd stdout, _ytdlp_cmd h = Some cmd
                ∧ run (cmd ++ ["--get-title"; StartRequest.url req]) = Some (0%Z, stdout)
                ∧ title = Py.strip stdout)
  ∧ ∀ later m task,
      (start_download_on h run req tid later m).1.1 !! tid = Some task →
      m !! tid = None →
              Task.title task = get_video_title h run (StartRequest.url req).
Proof.
  split.
  - intros title. unfold get_video_title.
    destruct (_ytdlp_cmd h) as [cmd|]; [|done].
    destruct (run _) as [[code stdout]|] eqn:Hr; [|done].
    destruct (code =? 0)%Z eqn:Hc; [|done]. apply Z.eqb_eq in Hc as ->.
    destruct (Py.nonempty (Py.strip stdout)) eqn:Hn; [|done].
    intros [= <-]. split; [by destruct (Py.strip stdout)|].
    split; [apply strip_idem|]. by exists cmd, stdout.
  - intros later m task. unfold start_download_on, start_download.
    destruct (Nat.leb _ _); simpl; [congruence|].
    rewrite lookup_insert_eq. intros [= <-] _. unfold store_title.
    destruct (get_video_title _ _ _) as [title|] eqn:Hg; [|done]. simpl.
    assert (Hn : Py.nonempty title = true).
    { revert Hg. unfold get_video_title. repeat case_match; try done. congruence. }
    by rewrite Hn.
Qed.

Lemma digits_value_nonneg s acc :
  (0 ≤ acc)%Z → forallb Py.isdigit (list_ascii_of_string s) = true →
  (0 ≤ Py.digits_value acc s)%Z.
Proof.
  revert acc. induction s as [|c s IH]; intros acc Ha; simpl; [done|].
  intros [Hc Hs]%andb_true_iff. apply IH; [|done].
  unfold Py.digit_value, Py.isdigit in *.
  apply andb_true_iff in Hc as [H1 _]. apply Nat.leb_le in H1. lia.
Qed.

Lemma span_forall p s : forallb p (list_ascii_of_string (Py.span p s).1) = true.
Proof.
  induction s as [|c s IH]; simpl; [done|].
  destruct (p c) eqn:Hc; [|done].
  destruct (Py.span p s) as [a b]; simpl in *. by rewrite Hc.
Qed.

Lemma search_some {A} (f : string → option A) s r :
  Py.search f s = Some r → ∃ s', f s' = Some r.
Proof.
  induction s as [|c s IH]; simpl.
  - destruct (f EmptyString) eqn:E; [|done]. intros [= <-]. eauto.
  - destruct (f (String c s)) eqn:E; [intros [= <-]; eauto|]. exact IH.
Qed.

(** X22. The ETA that the media worker reads from a line is never
    negative: it is 60 times the minutes plus the seconds, both read from
    digits. *)
Theorem media_eta_nonnegative (raw : string) (t : Task.t) :
  (∀ e, Task.eta t = Some e → (0 ≤ e)%Z) →
  ∀ e, Task.eta (ytdlp_line raw t).1 = Some e → (0 ≤ e)%Z.
Proof.
  intros Ht.
  assert (He : ∀ line t0, (∀ e, Task.eta t0 = Some e → (0 ≤ e)%Z) →
                 ∀ e, Task.eta (parse_eta line t0) = Some e → (0 ≤ e)%Z).
  { intros line t0 H0 e. unfold parse_eta.
    destruct (eta_re line) as [[mm ss]|] eqn:Hm; [|apply H0].
    apply search_some in Hm as [s' Hm]. unfold eta_at in Hm.
    destruct (Py.after_prefix "ETA" s') as [r|]; [|done].
    pose proof (span_forall Py.isdigit (Py.lstrip_by Py.isspace r)) as H1.
    destruct (Py.span Py.isdigit (Py.lstrip_by Py.isspace r)) as [mm' r1].
    destruct r1 as [|c r2]; [done|].
    pose proof (span_forall Py.isdigit r2) as H2.
    destruct (Py.span Py.isdigit r2) as [ss' r3].
    destruct (_ && _ && _); [|done]. injection Hm as <- <-. simpl in H1, H2.
    unfold store_eta. simpl. intros [= <-].
    pose proof (digits_value_nonneg mm' 0 ltac:(lia) H1).
    pose proof (digits_value_nonneg ss' 0 ltac:(lia) H2). lia. }
  intros e. unfold ytdlp_line, control_check, parse_merging, parse_destination,
    store_filename.
  set (line := Py.strip raw).
  assert (Hp : ∀ e, Task.eta (parse_progress line t) = Some e → (0 ≤ e)%Z).
  { unfold parse_progress. repeat case_match; try apply Ht;
      apply He; unfold store_speed, store_progress; apply Ht. }
  repeat case_match; simpl; try apply Ht; apply Hp.
Qed.

Lemma media_eta_nonnegative_witness :
  (∀ e, Task.eta (Task.init "t1" sample_request) = Some e → (0 ≤ e)%Z)
  ∧ Task.eta (ytdlp_line sample_progress_line (Task.init "t1" sample_request)).1
    = Some 30%Z
  ∧ (0 ≤ 30)%Z.
Proof.
  assert (H : ∀ e, Task.eta (Task.init "t1" sample_request) = Some e → (0 ≤ e)%Z)
    by (intros e; discriminate).
  assert (He : Task.eta (ytdlp_line sample_progress_line
                           (Task.init "t1" sample_request)).1 = Some 30%Z)
    by (vm_compute; reflexivity).
  split; [exact H|]. split; [exact He|].
  exact (media_eta_nonnegative sample_progress_line (Task.init "t1" sample_request)
           H 30%Z He).
Defined.

(** X23. The address is always the last argument of the command line, and
    the command line begins with the program, [--newline], [-o] and the
    output template. The program is the one [_ytdlp_cmd] finds when it
    finds one; when it finds none the worker still starts the interpreter
    with [-m yt_dlp]. *)
Theorem command_shape (h : Host.t) (task : Task.t) :
  List.last (ytdlp_cmd h task) EmptyString = Task.url task
  ∧ (∃ options, ytdlp_cmd h task
       = base_cmd h ++ ["--newline"; "-o"; outtmpl h task] ++ options ++ [Task.url task]
       ∧ options = quality_args task ++ format_args task)
  ∧ (∀ cmd, _ytdlp_cmd h = Some cmd → base_cmd h = cmd)
  ∧ (_ytdlp_cmd h = None → base_cmd h = [Host.executable h; "-m"; "yt_dlp"]).
Proof.
  split; [|split; [|split]].
  - unfold ytdlp_cmd. rewrite !app_assoc. apply last_last.
  - exists (quality_args task ++ format_args task). split; [|done].
    unfold ytdlp_cmd. by rewrite <- !app_assoc.
  - intros cmd. unfold _ytdlp_cmd, base_cmd.
    destruct (Py.truthy (ytdlp_bin h)); [congruence|].
    destruct (Host.importable h); congruence.
  - unfold _ytdlp_cmd, base_cmd.
    destruct (Py.truthy (ytdlp_bin h)); [done|]. done.
Qed.

Lemma span_no_break s :
  forallb (λ c, negb (PyStr.line_break c))
    (list_ascii_of_string (Py.span (λ c, negb (PyStr.line_break c)) s).1) = true.
Proof. apply span_forall. Qed.

(** X24. The versions that the health check reports: the one of the
    download program is never empty and has no blank at either end; the one
    of [ffmpeg] is reported only when [ffmpeg] is found, and is then the
    first line of what it prints, with no line break. Either is none when
    its command raises. *)
Theorem health_versions (h : Host.t) (check_output : list string → option string)
    (now : string) :
  (∀ v, (health h check_output now).1.1 = Some v →
        v ≠ EmptyString ∧ Py.strip v = v)
  ∧ (∀ v, (health h check_output now).1.2 = Some v →
          Host.which h "ffmpeg" ≠ None
          ∧ forallb (λ c, negb (PyStr.line_break c)) (list_ascii_of_string v) = true)
  ∧ ((∀ cmd, check_output cmd = None) →
       health h check_output now = (None, None, now)).
Proof.
  unfold health, _ytdlp_version, _ffmpeg_version, _bin_exists. simpl.
  split; [|split].
  - intros v. destruct (_ytdlp_cmd h); [|done].
    destruct (check_output _) as [out|]; [|done].
    destruct (Py.nonempty (Py.strip out)) eqn:Hn; [|done].
    intros [= <-]. split; [by destruct (Py.strip out)|apply strip_idem].
  - intros v. case_bool_decide as Hw; simpl; [|done].
    destruct (check_output _) as [out|]; [|done].
    unfold PyStr.first_line. destruct (Py.nonempty out); [|done].
    intros [= <-]. split; [done|apply span_no_break].
  - intros H. destruct (_ytdlp_cmd h); rewrite ?H; by case_bool_decide.
Qed.

Lemma lstrip_by_none p s :
  forallb (λ c, negb (p c)) (list_ascii_of_string s) = true → Py.lstrip_by p s = s.
Proof. destruct s as [|c s]; [done|]. simpl. by intros [->%negb_true_iff _]%andb_true_iff. Qed.

Lemma rstrip_by_none p s :
  forallb (λ c, negb (p c)) (list_ascii_of_string s) = true → Py.rstrip_by p s = s.
Proof.
  induction s as [|c s IH]; [done|]. simpl.
  intros [Hc%negb_true_iff Hs]%andb_true_iff. rewrite IH by done.
  destruct s; [by rewrite Hc|done].
Qed.

Lemma drop_underscores_none prev s :
  Ascii.eqb prev "_" = false →
  forallb (λ c, negb (Ascii.eqb c "_")) (list_ascii_of_string s) = true →
  Py.drop_underscores prev s = Some s.
Proof.
  revert prev. induction s as [|c s IH]; intros prev Hp; cbn [Py.drop_underscores].
  - by rewrite Hp.
  - cbn [list_ascii_of_string forallb].
    intros [Hc%negb_true_iff Hs]%andb_true_iff.
    rewrite Hc, Hp. cbn [andb]. by rewrite IH.
Qed.

Lemma digits_value_uint d acc :
  Py.digits_value (Z.pos acc) (NilEmpty.string_of_uint d) = Z.pos (Pos.of_uint_acc d acc).
Proof.
  revert acc. induction d; intros acc; cbn [NilEmpty.string_of_uint Py.digits_value Pos.of_uint_acc];
    [done|..];
    match goal with |- Py.digits_value ?z _ = _ =>
      match goal with |- _ = Z.pos (Pos.of_uint_acc _ ?q) =>
        replace z with (Z.pos q) by (match goal with |- context [Py.digit_value ?c] => let v := eval vm_compute in (Py.digit_value c) in change (Py.digit_value c) with v end; lia) end end;
    apply IHd.
Qed.

Lemma digits_value_of_uint d :
  Py.digits_value 0 (NilEmpty.string_of_uint d) = Z.of_N (Pos.of_uint d).
Proof.
  induction d; cbn [NilEmpty.string_of_uint Py.digits_value Pos.of_uint]; [done|exact IHd|..];
    match goal with |- Py.digits_value ?z _ = Z.of_N (N.pos (Pos.of_uint_acc _ ?q)) =>
      replace z with (Z.pos q) by (match goal with |- context [Py.digit_value ?c] => let v := eval vm_compute in (Py.digit_value c) in change (Py.digit_value c) with v end; lia) end;
    apply digits_value_uint.
Qed.

Lemma string_of_uint_digits d :
  forallb Py.isdigit (list_ascii_of_string (NilZero.string_of_uint d)) = true.
Proof.
  unfold NilZero.string_of_uint.
  assert (H : ∀ d, forallb Py.isdigit (list_ascii_of_string (NilEmpty.string_of_uint d))
                   = true).
  { clear d. induction d; simpl; auto. }
  destruct d; try apply H; reflexivity.
Qed.

Lemma digits_value_of_uint0 d :
  Py.digits_value 0 (NilZero.string_of_uint d) = Z.of_N (Pos.of_uint d).
Proof.
  unfold NilZero.string_of_uint. destruct d; try apply digits_value_of_uint. reflexivity.
Qed.

Lemma forallb_weaken {A} (p q : A → bool) l :
  (∀ x, p x = true → q x = true) → forallb p l = true → forallb q l = true.
Proof.
  intros H. induction l as [|x l IH]; simpl; [done|].
  intros [Hx Hl]%andb_true_iff. by rewrite (H x Hx), IH.
Qed.

Lemma isdigit_cases c :
  Py.isdigit c = true →
  Ascii.eqb c "_" = false ∧ Py.num_space c = false
  ∧ Ascii.eqb c "-" = false ∧ Ascii.eqb c "+" = false.
Proof.
  destruct c as [[] [] [] [] [] [] [] []]; vm_compute; intros; try discriminate; auto.
Qed.

(** Reading the digits of a numeral. *)
Lemma int_of_digits s :
  Py.nonempty s = true →
  forallb Py.isdigit (list_ascii_of_string s) = true →
  Py.int_of_str s = Some (Py.digits_value 0 s)
  ∧ Py.int_of_str (String "-" s) = Some (- Py.digits_value 0 s)%Z.
Proof.
  intros Hn Hd.
  assert (H1 : forallb (λ c, negb (Py.num_space c)) (list_ascii_of_string s) = true).
  { revert Hd. apply forallb_weaken. intros c Hc.
    destruct (isdigit_cases c Hc) as (_ & -> & _). done. }
  assert (H2 : forallb (λ c, negb (Ascii.eqb c "_")) (list_ascii_of_string s) = true).
  { revert Hd. apply forallb_weaken. intros c Hc.
    destruct (isdigit_cases c Hc) as (-> & _). done. }
  unfold Py.int_of_str. split.
  - rewrite lstrip_by_none, rstrip_by_none, drop_underscores_none by done.
    destruct s as [|c s]; [done|]. unfold Py.parse_sign.
    simpl in Hd. apply andb_true_iff in Hd as [Hc Hs].
    destruct (isdigit_cases c Hc) as (_ & _ & -> & ->).
    rewrite Hn. cbn [list_ascii_of_string forallb]. by rewrite Hc, Hs.
  - rewrite lstrip_by_none, rstrip_by_none, drop_underscores_none;
      try (cbn [list_ascii_of_string forallb]; by rewrite ?H1, ?H2).
    unfold Py.parse_sign. change (Ascii.eqb "-" "-") with true. cbv iota.
    by rewrite Hn, Hd.
Qed.

Lemma int_of_str_of_int n : Py.int_of_str (PyStr.str_of_int n) = Some n.
Proof.
  unfold PyStr.str_of_int.
  assert (Hne : ∀ d, Py.nonempty (NilZero.string_of_uint d) = true).
  { intros d. unfold NilZero.string_of_uint. by destruct d. }
  destruct n as [|p|p]; [reflexivity| |]; cbn [Z.to_int NilZero.string_of_int].
  - rewrite (proj1 (int_of_digits _ (Hne _) (string_of_uint_digits _))).
    by rewrite digits_value_of_uint0, DecimalPos.Unsigned.of_to.
  - rewrite (proj2 (int_of_digits _ (Hne _) (string_of_uint_digits _))).
    by rewrite digits_value_of_uint0, DecimalPos.Unsigned.of_to.
Qed.

(** X25. For a video task whose quality ends in [p] and reads as an
    integer before it, the resolution hint carries that integer: the text
    after [res:] reads back, by the same [int], as the integer read from
    the quality, whatever blanks, sign or underscores the quality had. *)
Theorem resolution_hint_round_trip (task : Task.t) (n : Z) :
  Task.category task = "video" →
  PyStr.endswith "p" (Task.quality task) = true →
  Py.int_of_str (PyStr.drop_last (Task.quality task)) = Some n →
  ∃ hint, quality_args task = ["-S"; "res:" +:+ hint] ∧ Py.int_of_str hint = Some n.
Proof.
  intros Hc He Hn. unfold quality_args. rewrite Hc, He, Hn. simpl.
  exists (PyStr.str_of_int n). split; [done|apply int_of_str_of_int].
Qed.

Lemma resolution_hint_round_trip_witness :
  Task.category odd_quality_task = "video"
  ∧ PyStr.endswith "p" (Task.quality odd_quality_task) = true
  ∧ Py.int_of_str (PyStr.drop_last (Task.quality odd_quality_task)) = Some 1080%Z
  ∧ quality_args odd_quality_task = ["-S"; "res:1080"]
  ∧ ∃ hint, quality_args odd_quality_task = ["-S"; "res:" +:+ hint]
            ∧ Py.int_of_str hint = Some 1080%Z.
Proof.
  split; [reflexivity|]. split; [reflexivity|]. split; [reflexivity|].
  split; [reflexivity|].
  exact (resolution_hint_round_trip odd_quality_task 1080 eq_refl eq_refl eq_refl).
Defined.
